(** * tikky: the request-handling layer of the counter service

    A shallow embedding of package [api] (handlers [WriteHandler],
    [ReadHandler], [HealthHandler], [MetricsHandler] and the helpers
    [writeJSON], [writeJSONError]), of the test double [mockRedisClient]
    of the package's tests, of [NewClient] of package [redis], of
    [make_requests] of the load test script and [detect_cluster] and
    [load_image] of the build script, and of the library behaviour the handlers
    rely on: [strconv.ParseInt] / [strconv.FormatInt], the JSON encoder
    on the two map types the handlers encode, [fmt.Sprintf] with the
    verb [%d], and an [http.ResponseWriter] in the style of
    [httptest.ResponseRecorder].

    Go integers are modelled as [Z] with the wrap-around written out,
    Go strings as [string] (a sequence of bytes), Go maps as [gmap],
    a Go [(value, error)] pair as [A * option error]. *)

From Stdlib Require Import ZArith Ascii String Lia.
From stdpp Require Import base option strings list gmap.

Open Scope Z_scope.

(** ** Machine integers *)

Definition MaxInt64 : Z := 9223372036854775807.
Definition MinInt64 : Z := -9223372036854775808.
Definition MaxUint64 : Z := 18446744073709551615.

(** Conversion to [uint64] and to [int64]: reduction modulo [2^64]. *)
Definition uint64 (z : Z) : Z := z mod 2 ^ 64.
Definition int64 (z : Z) : Z := (z + 2 ^ 63) mod 2 ^ 64 - 2 ^ 63.
(** Conversion to [int32] (a [rune]). *)
Definition int32 (z : Z) : Z := (z + 2 ^ 31) mod 2 ^ 32 - 2 ^ 31.

Definition byte_of (z : Z) : ascii := ascii_of_N (Z.to_N z).
Definition code_of (c : ascii) : Z := Z.of_N (N_of_ascii c).

(** The double quote and the line feed, which string literals of this
    file do not contain. *)
Definition dq : string := String "034"%char EmptyString.
Definition nl : string := String "010"%char EmptyString.

(** ** Errors

    A Go [error] value.  [Nil] is the sentinel [redis.Nil] (key absent),
    [NumError] is [*strconv.NumError], [Canceled] and [DeadlineExceeded]
    are the errors of package [context], [errorString] is any other
    error (network, server reply, broken pipe) with its message. *)

Inductive numErr : Type := ErrSyntax | ErrRange.

Inductive error : Type :=
| Nil
| NumError (Func Num : string) (Err : numErr)
| Canceled
| DeadlineExceeded
| errorString (msg : string).

(** ** Package strconv *)

Module strconv.

Definition digit (d : Z) : ascii := byte_of (48 + d).

(** The decimal digits of [u], most significant first, pushed in front
    of [acc]; [fuel] bounds the number of digits. *)
Fixpoint formatBits (fuel : nat) (u : Z) (acc : string) : string :=
  match fuel with
  | O => acc
  | S fuel' =>
      let acc' := String (digit (u mod 10)) acc in
      if u <? 10 then acc' else formatBits fuel' (u / 10) acc'
  end.

(** [FormatInt(i, 10)] for an [int64]: at most 19 digits after the sign. *)
Definition FormatInt (i : Z) : string :=
  if i <? 0 then String "-" (formatBits 20 (- i) EmptyString)
  else formatBits 20 i EmptyString.

Definition lower (c : Z) : Z := Z.lor c 32.

(** The value of a byte as a digit: decimal digits, then letters from
    10 on, as in the [switch] of [ParseUint]. *)
Definition digitVal (c : ascii) : option Z :=
  let n := code_of c in
  if (48 <=? n) && (n <=? 57) then Some (n - 48)
  else if (97 <=? lower n) && (lower n <=? 122) then Some (lower n - 97 + 10)
  else None.

Definition cutoff : Z := MaxUint64 / 10 + 1.

(** The loop of [ParseUint(s, 10, 64)] from accumulator [n]. *)
Fixpoint parseLoop (s : string) (n : Z) : Z * option numErr :=
  match s with
  | EmptyString => (n, None)
  | String c rest =>
      match digitVal c with
      | None => (0, Some ErrSyntax)
      | Some d =>
          if 10 <=? d then (0, Some ErrSyntax)
          else if cutoff <=? n then (MaxUint64, Some ErrRange)
          else
            let n' := uint64 (n * 10) in
            let n1 := uint64 (n' + d) in
            if (n1 <? n') || (MaxUint64 <? n1) then (MaxUint64, Some ErrRange)
            else parseLoop rest n1
      end
  end.

Definition ParseUint (s : string) : Z * option error :=
  match s with
  | EmptyString => (0, Some (NumError "ParseUint" s ErrSyntax))
  | _ =>
      match parseLoop s 0 with
      | (n, None) => (n, None)
      | (n, Some k) => (n, Some (NumError "ParseUint" s k))
      end
  end.

(** [ParseInt(s, 10, 64)]. *)
Definition ParseInt (s0 : string) : Z * option error :=
  match s0 with
  | EmptyString => (0, Some (NumError "ParseInt" s0 ErrSyntax))
  | String c rest =>
      let '(neg, s) :=
        if Ascii.eqb c "+" then (false, rest)
        else if Ascii.eqb c "-" then (true, rest)
        else (false, s0) in
      match ParseUint s with
      | (_, Some (NumError _ _ ErrSyntax)) => (0, Some (NumError "ParseInt" s0 ErrSyntax))
      | (un, _) =>
          let cut := 2 ^ 63 in
          if negb neg && (cut <=? un) then (cut - 1, Some (NumError "ParseInt" s0 ErrRange))
          else if neg && (cut <? un) then (- cut, Some (NumError "ParseInt" s0 ErrRange))
          else (if neg then int64 (- int64 un) else int64 un, None)
      end
  end.

End strconv.

(** ** Package encoding/json, on the values the handlers encode *)

Module json.

Definition hex (d : Z) : ascii :=
  if d <? 10 then byte_of (48 + d) else byte_of (97 + d - 10).

(** One byte of a string under the encoder's default HTML-safe
    escaping.  Bytes from 128 on are copied: the strings encoded by the
    handlers are ASCII constants. *)
Definition escapeByte (c : ascii) : string :=
  let n := code_of c in
  if (n =? 34) || (n =? 92) then String "\" (String c EmptyString)
  else if n =? 8 then "\b"
  else if n =? 12 then "\f"
  else if n =? 10 then "\n"
  else if n =? 13 then "\r"
  else if n =? 9 then "\t"
  else if (n <? 32) || (n =? 60) || (n =? 62) || (n =? 38) then
    "\u00" +:+ String (hex (n / 16)) (String (hex (n mod 16)) EmptyString)
  else String c EmptyString.

Fixpoint escape (s : string) : string :=
  match s with
  | EmptyString => EmptyString
  | String c rest => escapeByte c +:+ escape rest
  end.

Definition quote (s : string) : string := dq +:+ escape s +:+ dq.

(** Keys of an object are written in increasing byte order. *)
Fixpoint insertKey {V} (kv : string * V) (l : list (string * V)) : list (string * V) :=
  match l with
  | [] => [kv]
  | kv' :: l' =>
      if String.leb (fst kv) (fst kv') then kv :: l else kv' :: insertKey kv l'
  end.

Definition sortKeys {V} (l : list (string * V)) : list (string * V) :=
  foldr insertKey [] l.

Fixpoint members (l : list string) : string :=
  match l with
  | [] => EmptyString
  | [x] => x
  | x :: l' => x +:+ "," +:+ members l'
  end.

Definition object {V} (val : V -> string) (m : gmap string V) : string :=
  "{" +:+ members ((fun kv => quote (fst kv) +:+ ":" +:+ val (snd kv)) <$> sortKeys (map_to_list m)) +:+ "}".

(** The values of type [any] handed to [writeJSON]. *)
Inductive any : Type :=
| MapStringInt64 (m : gmap string Z)
| MapStringString (m : gmap string string).

Definition Marshal (v : any) : string :=
  match v with
  | MapStringInt64 m => object strconv.FormatInt m
  | MapStringString m => object quote m
  end.

End json.

(** ** Package fmt: [Sprintf] with integer arguments

    The verb [%d] prints the next argument in decimal, [%!d(MISSING)]
    when the arguments are used up; [%%] prints a percent sign.  Other
    verbs and flags do not occur in the formats of this program and are
    copied. *)

Module fmt.

Fixpoint Sprintf (format : string) (args : list Z) : string :=
  match format with
  | EmptyString => EmptyString
  | String c rest =>
      if Ascii.eqb c "%" then
        match rest with
        | String c' rest' =>
            if Ascii.eqb c' "d" then
              match args with
              | a :: args' => strconv.FormatInt a +:+ Sprintf rest' args'
              | [] => "%!d(MISSING)" +:+ Sprintf rest' []
              end
            else if Ascii.eqb c' "%" then String "%" (Sprintf rest' args)
            else String c (String c' (Sprintf rest' args))
        | EmptyString => "%!(NOVERB)"
        end
      else String c (Sprintf rest args)
  end.

End fmt.

(** ** Package context

    What a store call can observe of the request's context: [ctx.Err()]. *)

Record Context : Type := { ctxErr : option error }.

Definition Background : Context := {| ctxErr := None |}.

(** ** Package net/http *)

Module http.

Definition StatusOK : Z := 200.
Definition StatusMethodNotAllowed : Z := 405.
Definition StatusInternalServerError : Z := 500.
Definition StatusServiceUnavailable : Z := 503.

Definition MethodGet : string := "GET".
Definition MethodPost : string := "POST".

Definition Header : Type := gmap string (list string).

Record Request : Type := {
  Method : string;
  URL : string;
  ReqHeader : Header;
  Body : string;
  ctx : Context
}.

End http.

(** ** The response writer

    An [http.ResponseWriter] in the style of [httptest.ResponseRecorder],
    which the tests of the package hand to the handlers.  Two additions:
    [events] lists the calls made on the writer in order, and [writeErr]
    is the error that [Write] reports back (a broken connection); the
    bytes handed to [Write] are recorded in [Body] in either case.
    [Header().Set] is applied to keys in canonical form, and the content
    sniffing of a [Write] without a content type is left out: every
    handler sets the content type first. *)

Module httptest.

Inductive event : Type :=
| EvHeaderSet (key value : string)
| EvWriteHeader (code : Z)
| EvWrite (buf : string).

Record ResponseRecorder : Type := {
  Code : Z;
  HeaderMap : http.Header;
  Body : string;
  wroteHeader : bool;
  snapHeader : option http.Header;
  writeErr : option error;
  events : list event
}.

Definition NewRecorder : ResponseRecorder :=
  {| Code := 200; HeaderMap := ∅; Body := EmptyString; wroteHeader := false;
     snapHeader := None; writeErr := None; events := [] |}.

(** A recorder whose [Write] reports [e]. *)
Definition failing (e : error) : ResponseRecorder :=
  {| Code := 200; HeaderMap := ∅; Body := EmptyString; wroteHeader := false;
     snapHeader := None; writeErr := Some e; events := [] |}.

Definition record (ev : event) (rw : ResponseRecorder) : ResponseRecorder :=
  {| Code := Code rw; HeaderMap := HeaderMap rw; Body := Body rw;
     wroteHeader := wroteHeader rw; snapHeader := snapHeader rw;
     writeErr := writeErr rw; events := events rw ++ [ev] |}.

(** [rw.Header().Set(key, value)] *)
Definition HeaderSet (key value : string) (rw : ResponseRecorder) : ResponseRecorder :=
  let rw := record (EvHeaderSet key value) rw in
  {| Code := Code rw; HeaderMap := <[key := [value]]> (HeaderMap rw); Body := Body rw;
     wroteHeader := wroteHeader rw; snapHeader := snapHeader rw;
     writeErr := writeErr rw; events := events rw |}.

Definition commit (code : Z) (rw : ResponseRecorder) : ResponseRecorder :=
  if wroteHeader rw then rw
  else
    {| Code := code; HeaderMap := HeaderMap rw; Body := Body rw;
       wroteHeader := true; snapHeader := Some (HeaderMap rw);
       writeErr := writeErr rw; events := events rw |}.

(** [rw.WriteHeader(code)]: only the first call commits. *)
Definition WriteHeader (code : Z) (rw : ResponseRecorder) : ResponseRecorder :=
  commit code (record (EvWriteHeader code) rw).

(** [rw.Write(buf)] *)
Definition Write (buf : string) (rw : ResponseRecorder) : option error * ResponseRecorder :=
  let rw := commit 200 (record (EvWrite buf) rw) in
  (writeErr rw,
   {| Code := Code rw; HeaderMap := HeaderMap rw; Body := Body rw +:+ buf;
      wroteHeader := wroteHeader rw; snapHeader := snapHeader rw;
      writeErr := writeErr rw; events := events rw |}).

(** The headers of the response as sent: the snapshot taken when the
    status was committed. *)
Definition sent (key : string) (rw : ResponseRecorder) : option (list string) :=
  snapHeader rw ≫= (.!! key).

End httptest.

(** ** The store client

    The capability set the handlers use of [Server.RedisClient] (the
    part of go-redis's [Cmdable] they call): the commands [Incr], [Get]
    and [Ping], each with the request's context, each returning a command
    holding a value and an error.  An implementation owns a state of
    type [S]. *)

Module redis.

Definition IntCmd : Type := Z * option error.
Definition StringCmd : Type := string * option error.
Definition StatusCmd : Type := string * option error.

(** [cmd.Int64()] of a [StringCmd]. *)
Definition Int64 (cmd : StringCmd) : Z * option error :=
  match snd cmd with
  | Some e => (0, Some e)
  | None => strconv.ParseInt (fst cmd)
  end.

End redis.

Class Cmdable (S : Type) : Type := {
  Incr : Context -> string -> S -> redis.IntCmd * S;
  Get : Context -> string -> S -> redis.StringCmd * S;
  Ping : Context -> S -> redis.StatusCmd * S
}.

(** ** Package api *)

Module api.

(** A call made on the store client together with its reply. *)
Inductive storeCall : Type :=
| CallIncr (key : string) (reply : redis.IntCmd)
| CallGet (key : string) (reply : redis.StringCmd)
| CallPing (reply : redis.StatusCmd).

(** What a handler invocation acts on: the client held by the [Server]
    (field [RedisClient], a shared handle whose state lives on between
    requests), the response writer [w], the records emitted through
    [slog.Error] (message and error), and the trace of store calls. *)
Record World (S : Type) : Type := {
  RedisClient : S;
  w : httptest.ResponseRecorder;
  slog : list (string * error);
  calls : list storeCall
}.
Arguments RedisClient {S} _.
Arguments w {S} _.
Arguments slog {S} _.
Arguments calls {S} _.

(** Handler code runs in a state monad over [World S]. *)
Definition M (S A : Type) : Type := World S -> A * World S.

Definition ret {S A} (a : A) : M S A := fun σ => (a, σ).
Definition bind {S A B} (m : M S A) (k : A -> M S B) : M S B :=
  fun σ => let '(a, σ') := m σ in k a σ'.

Declare Scope go_scope.
Delimit Scope go_scope with go.
Notation "x <- m ;; k" := (bind m (fun x => k))
  (at level 100, m at next level, right associativity) : go_scope.
Notation "m ;; k" := (bind m (fun _ => k))
  (at level 100, right associativity) : go_scope.
Open Scope go_scope.

Section Handlers.
Context {S : Type} `{Cmdable S}.

(** *** Primitive effects *)

Definition onWriter {A} (f : httptest.ResponseRecorder -> A * httptest.ResponseRecorder) : M S A :=
  fun σ => let '(a, rw) := f (w σ) in
           (a, {| RedisClient := RedisClient σ; w := rw; slog := slog σ; calls := calls σ |}).

Definition headerSet (key value : string) : M S unit :=
  onWriter (fun rw => (tt, httptest.HeaderSet key value rw)).

Definition writeHeader (code : Z) : M S unit :=
  onWriter (fun rw => (tt, httptest.WriteHeader code rw)).

Definition write (buf : string) : M S (option error) :=
  onWriter (httptest.Write buf).

(** [slog.Error(msg, "err", err)] *)
Definition slogError (msg : string) (err : error) : M S unit :=
  fun σ => (tt, {| RedisClient := RedisClient σ; w := w σ;
                   slog := slog σ ++ [(msg, err)]; calls := calls σ |}).

Definition onClient {A} (f : S -> A * S) (ev : A -> storeCall) : M S A :=
  fun σ => let '(a, c) := f (RedisClient σ) in
           (a, {| RedisClient := c; w := w σ; slog := slog σ;
                  calls := calls σ ++ [ev a] |}).

(** [s.RedisClient.Incr(ctx, key).Result()] *)
Definition incrResult (c : Context) (key : string) : M S (Z * option error) :=
  onClient (Incr c key) (CallIncr key).

(** [s.RedisClient.Get(ctx, key).Int64()] *)
Definition getInt64 (c : Context) (key : string) : M S (Z * option error) :=
  cmd <- onClient (Get c key) (CallGet key) ;; ret (redis.Int64 cmd).

(** [s.RedisClient.Ping(ctx).Result()] *)
Definition pingResult (c : Context) : M S (string * option error) :=
  onClient (Ping c) CallPing.

(** [json.NewEncoder(w).Encode(v)]: the encoding of [v] and a line
    feed, in one [Write]; the error is that of the [Write]. *)
Definition Encode (v : json.any) : M S (option error) :=
  write (json.Marshal v +:+ nl).

(** *** The handlers *)

Definition redisCounterKey : string := "counter".

Definition writeJSON (status : Z) (v : json.any) : M S unit :=
  headerSet "Content-Type" "application/json" ;;
  writeHeader status ;;
  err <- Encode v ;;
  match err with
  | Some e => slogError "Failed to write JSON response" e
  | None => ret tt
  end.

Definition writeJSONError (status : Z) (message : string) : M S unit :=
  writeJSON status (json.MapStringString {[ "error"%string := message ]}).

Definition WriteHandler (r : http.Request) : M S unit :=
  if negb (String.eqb (http.Method r) http.MethodPost) then
    writeJSONError http.StatusMethodNotAllowed "Only POST method is allowed"
  else
    res <- incrResult (http.ctx r) redisCounterKey ;;
    match res with
    | (_, Some err) =>
        slogError "Failed to increment redis counter" err ;;
        writeJSONError http.StatusInternalServerError "Failed to update counter"
    | (val, None) =>
        writeJSON http.StatusOK (json.MapStringInt64 {[ "value"%string := val ]})
    end.

Definition ReadHandler (r : http.Request) : M S unit :=
  if negb (String.eqb (http.Method r) http.MethodGet) then
    writeJSONError http.StatusMethodNotAllowed "Only GET method is allowed"
  else
    res <- getInt64 (http.ctx r) redisCounterKey ;;
    match res with
    | (_, Some Nil) =>
        writeJSON http.StatusOK (json.MapStringInt64 {[ "value"%string := 0 ]})
    | (_, Some err) =>
        slogError "Failed to read redis counter" err ;;
        writeJSONError http.StatusInternalServerError "Failed to read counter"
    | (val, None) =>
        writeJSON http.StatusOK (json.MapStringInt64 {[ "value"%string := val ]})
    end.

Definition healthPayload : gmap string string :=
  <["status"%string := "healthy"%string]>
    (<["service"%string := "tikky-api"%string]>
       (<["redis"%string := "connected"%string]>
          (<["vibe"%string := "immaculate"%string]> ∅))).

Definition HealthHandler (r : http.Request) : M S unit :=
  if negb (String.eqb (http.Method r) http.MethodGet) then
    writeJSONError http.StatusMethodNotAllowed "Only GET method is allowed"
  else
    res <- pingResult (http.ctx r) ;;
    match res with
    | (_, Some err) =>
        slogError "Health check failed - Redis connectivity" err ;;
        writeJSONError http.StatusServiceUnavailable "Redis unavailable"
    | (_, None) =>
        writeJSON http.StatusOK (json.MapStringString healthPayload)
    end.

(** The format string of [MetricsHandler]. *)
Definition metrics : string :=
  "# HELP tikky_counter_total Total counter value (goes brrr)" +:+ nl +:+
  "# TYPE tikky_counter_total counter" +:+ nl +:+
  "tikky_counter_total %d" +:+ nl +:+
  nl +:+
  "# HELP tikky_redis_connected Redis connection status (1=connected, 0=disconnected)" +:+ nl +:+
  "# TYPE tikky_redis_connected gauge" +:+ nl +:+
  "tikky_redis_connected %d" +:+ nl +:+
  nl +:+
  "# HELP tikky_build_info Build information" +:+ nl +:+
  "# TYPE tikky_build_info gauge" +:+ nl +:+
  "tikky_build_info{version=" +:+ dq +:+ "1.0.0" +:+ dq +:+ ",service=" +:+ dq +:+ "tikky-api" +:+ dq +:+ "} 1" +:+ nl.

Definition MetricsHandler (r : http.Request) : M S unit :=
  if negb (String.eqb (http.Method r) http.MethodGet) then
    writeJSONError http.StatusMethodNotAllowed "Only GET method is allowed"
  else
    res <- getInt64 (http.ctx r) redisCounterKey ;;
    val <- match res with
           | (_, Some Nil) => ret 0
           | (_, Some err) =>
               slogError "Failed to read counter for metrics" err ;; ret (-1)
           | (val, None) => ret val
           end ;;
    headerSet "Content-Type" "text/plain; version=0.0.4; charset=utf-8" ;;
    writeHeader http.StatusOK ;;
    pong <- pingResult (http.ctx r) ;;
    let redisConnected := match snd pong with Some _ => 0 | None => 1 end in
    write (fmt.Sprintf metrics [val; redisConnected]) ;;
    ret tt.

(** *** Serving requests *)

(** The routes registered on the mux in [main]. *)
Inductive route : Type := Write | Read | Health | Metrics.

Definition path (rt : route) : string :=
  match rt with
  | Read => "/read" | Write => "/write" | Health => "/health" | Metrics => "/metrics"
  end.

Definition handler (rt : route) : http.Request -> M S unit :=
  match rt with
  | Read => ReadHandler | Write => WriteHandler
  | Health => HealthHandler | Metrics => MetricsHandler
  end.

(** One handler invocation on response writer [rw], with client
    state [c]; nothing logged and no call made yet. *)
Definition serve (h : http.Request -> M S unit) (r : http.Request)
    (rw : httptest.ResponseRecorder) (c : S) : World S :=
  snd (h r {| RedisClient := c; w := rw; slog := []; calls := [] |}).

(** Requests served one after the other on the shared client, each
    with a recorder of its own. *)
Fixpoint serveAll (h : http.Request -> M S unit) (rs : list http.Request) (c : S)
    : list httptest.ResponseRecorder :=
  match rs with
  | [] => []
  | r :: rs' =>
      let σ := serve h r httptest.NewRecorder c in
      w σ :: serveAll h rs' (RedisClient σ)
  end.

End Handlers.

End api.

(** ** The test double of the package's tests

    [Server.RedisClient] is the concrete go-redis client, so the double
    does not stand under the handlers; it is modelled on its own. *)

Module mock.

(** [string(rune(x))]: the UTF-8 encoding of the code point, and of
    U+FFFD for a value that is not a valid code point. *)
Definition stringOfRune (r : Z) : string :=
  let b (z : Z) := byte_of z in
  if (r <? 0) || (1114111 <? r) || ((55296 <=? r) && (r <=? 57343)) then
    String (b 239) (String (b 191) (String (b 189) EmptyString))
  else if r <? 128 then String (b r) EmptyString
  else if r <? 2048 then
    String (b (Z.lor 192 (Z.shiftr r 6)))
      (String (b (Z.lor 128 (Z.land r 63))) EmptyString)
  else if r <? 65536 then
    String (b (Z.lor 224 (Z.shiftr r 12)))
      (String (b (Z.lor 128 (Z.land (Z.shiftr r 6) 63)))
         (String (b (Z.lor 128 (Z.land r 63))) EmptyString))
  else
    String (b (Z.lor 240 (Z.shiftr r 18)))
      (String (b (Z.lor 128 (Z.land (Z.shiftr r 12) 63)))
         (String (b (Z.lor 128 (Z.land (Z.shiftr r 6) 63)))
            (String (b (Z.lor 128 (Z.land r 63))) EmptyString))).

Record mockRedisClient : Type := { counter : Z; err : option error }.

Definition Get (_ : Context) (key : string) (m : mockRedisClient)
    : redis.StringCmd * mockRedisClient :=
  match err m with
  | Some e => ((EmptyString, Some e), m)
  | None =>
      if 0 <? counter m then ((stringOfRune (int32 (counter m)), None), m)
      else ((EmptyString, Some Nil), m)
  end.

Definition Incr (_ : Context) (key : string) (m : mockRedisClient)
    : redis.IntCmd * mockRedisClient :=
  match err m with
  | Some e => ((0, Some e), m)
  | None =>
      let m' := {| counter := int64 (counter m + 1); err := err m |} in
      ((counter m', None), m')
  end.

Definition Ping (_ : Context) (m : mockRedisClient)
    : redis.StatusCmd * mockRedisClient :=
  match err m with
  | Some e => ((EmptyString, Some e), m)
  | None => (("PONG"%string, None), m)
  end.

End mock.

(** ** The external store *)

Module server.

(** Modelled from the spec: the external durable key-value store and its
    client, which are no part of the repository.  Section 6 of the
    specification gives the contract ([increment] returning the new
    value, [get] telling an absent key from an error, [ping]); the model
    is a key-value map of strings behind a connection. *)
Record store : Type := { kv : gmap string string; down : option error }.

(** Modelled from the spec: a call fails, and leaves the data untouched,
    when the context of the request is done or the connection is down
    (the store errors for any reason: network, timeout, server error). *)
Definition unavailable (c : Context) (s : store) : option error :=
  match ctxErr c with
  | Some e => Some e
  | None => down s
  end.

(** Modelled from the spec: the integer a stored string stands for, when
    it is the decimal form of a 64-bit integer (the counter is an
    integer value, read as a 64-bit integer). *)
Definition integer (v : string) : option Z :=
  match strconv.ParseInt v with
  | (i, None) => if String.eqb (strconv.FormatInt i) v then Some i else None
  | _ => None
  end.

(** Modelled from the spec: the atomic increment.  It creates an absent
    key with value 1, returns the resulting value, and is refused on a
    value that is no 64-bit integer or that is the largest one. *)
Definition Incr (c : Context) (key : string) (s : store) : redis.IntCmd * store :=
  match unavailable c s with
  | Some e => ((0, Some e), s)
  | None =>
      match kv s !! key with
      | None => ((1, None), {| kv := <[key := "1"%string]> (kv s); down := down s |})
      | Some v =>
          match integer v with
          | None => ((0, Some (errorString "ERR value is not an integer or out of range")), s)
          | Some i =>
              if MaxInt64 <=? i then
                ((0, Some (errorString "ERR increment or decrement would overflow")), s)
              else
                ((i + 1, None),
                 {| kv := <[key := strconv.FormatInt (i + 1)]> (kv s); down := down s |})
          end
      end
  end.

(** Modelled from the spec: the fetch of a key; an absent key is told
    by the error [Nil]. *)
Definition Get (c : Context) (key : string) (s : store) : redis.StringCmd * store :=
  match unavailable c s with
  | Some e => ((EmptyString, Some e), s)
  | None =>
      match kv s !! key with
      | None => ((EmptyString, Some Nil), s)
      | Some v => ((v, None), s)
      end
  end.

(** Modelled from the spec: the liveness probe. *)
Definition Ping (c : Context) (s : store) : redis.StatusCmd * store :=
  match unavailable c s with
  | Some e => ((EmptyString, Some e), s)
  | None => (("PONG"%string, None), s)
  end.

#[global] Instance client : Cmdable store :=
  Build_Cmdable store Incr Get Ping.

(** Modelled from the spec: the counter as a reader sees it; an absent
    key counts as 0. *)
Definition counterOf (s : store) : Z :=
  match kv s !! api.redisCounterKey with
  | None => 0
  | Some v => fst (strconv.ParseInt v)
  end.

End server.

(** ** Package redis of the repository: the construction of the client *)

Module tikky_redis.

(** [os.Getenv]: the value of the variable, empty when it is unset. *)
Definition Getenv (env : gmap string string) (key : string) : string :=
  default EmptyString (env !! key).

(** [redis.Options], the fields [NewClient] sets; durations in
    nanoseconds. *)
Record Options : Type := {
  Addr : string;
  Password : string;
  DB : Z;
  PoolSize : Z;
  ReadTimeout : Z;
  WriteTimeout : Z
}.

Definition Second : Z := 1000000000.

(** The options [NewClient] builds from the environment. *)
Definition options (env : gmap string string) : Options :=
  let addr := Getenv env "REDIS_ADDR" in
  let addr := if String.eqb addr EmptyString then "localhost:6379"%string else addr in
  let password := Getenv env "REDIS_PASSWORD" in
  {| Addr := addr; Password := password; DB := 0; PoolSize := 20;
     ReadTimeout := 3 * Second; WriteTimeout := 3 * Second |}.

Section NewClient.
Context {S : Type} `{Cmdable S}.

(** [redis.NewClient(&opts)] of go-redis: the client for these options. *)
Variable dial : Options -> S.

(** [NewClient(ctx)]: the client, or the error of the first ping. *)
Definition NewClient (env : gmap string string) (c : Context) : option S * option error :=
  let rdb := dial (options env) in
  match Ping c rdb with
  | ((_, Some err), _) => (None, Some err)
  | ((_, None), rdb') => (Some rdb', None)
  end.

End NewClient.

End tikky_redis.

(** ** The load test script

    The script runs under [set -e].  A command whose exit status is not 0
    ends the shell it runs in, unless it stands in the condition of an
    [if].  The arithmetic command [((x++))] sets [x] and exits with
    status 1 when the value of its expression, the old [x], is 0. *)

Module loadtest.

Definition CONCURRENT_USERS : Z := 10.
Definition REQUESTS_PER_USER : Z := 50.
Definition TOTAL_REQUESTS : Z := CONCURRENT_USERS * REQUESTS_PER_USER.

(** How a shell function ends: it returns, or the shell exits. *)
Inductive sh (A : Type) : Type :=
| Returns (a : A)
| Exits (status : Z).
Arguments Returns {A} _.
Arguments Exits {A} _.

(** [set -e], line 5 of the script. *)
Definition errexit : bool := true.

(** [((x++))]: the new value of [x] and the exit status. *)
Definition post_increment (x : Z) : Z * Z :=
  (int64 (x + 1), if x =? 0 then 1 else 0).

Section MakeRequests.

(** [curl -s -f] with this method on this path, at the i-th turn of the
    loop: whether it exits with status 0. *)
Variable curl : string -> string -> Z -> bool.

(** [k] turns of the loop of [make_requests] from turn [i], with the
    requests issued so far. *)
Fixpoint requests (k : nat) (i success errors : Z) (issued : list (string * string))
    : sh (Z * Z) * list (string * string) :=
  match k with
  | O => (Returns (success, errors), issued)
  | S k' =>
      let req := if i mod 2 =? 0 then ("GET"%string, "/read"%string)
                 else ("POST"%string, "/write"%string) in
      let ok := curl (fst req) (snd req) i in
      let issued' := issued ++ [req] in
      let '(v, status) := post_increment (if ok then success else errors) in
      if errexit && negb (status =? 0) then (Exits status, issued')
      else if ok then requests k' (i + 1) v errors issued'
           else requests k' (i + 1) success v issued'
  end.

(** [make_requests] for [n] requests per user: the line written to the
    user's result file when the function gets there, and the requests
    issued. *)
Definition make_requests (n : Z) : sh string * list (string * string) :=
  match requests (Z.to_nat n) 1 0 0 [] with
  | (Returns (success, errors), issued) =>
      (Returns (strconv.FormatInt success +:+ "," +:+ strconv.FormatInt errors +:+ nl), issued)
  | (Exits status, issued) => (Exits status, issued)
  end.

End MakeRequests.

End loadtest.

(** ** The build-and-load script *)

Module buildload.

Definition IMAGE_NAME : string := "tikky:latest".
Definition YELLOW : string := "\033[1;33m".
Definition NC : string := "\033[0m".

(** The byte ESC, which [echo -e] prints for [\033]. *)
Definition ESC : ascii := "027"%char.

(** Command substitution drops the newlines at the end of the output. *)
Fixpoint chomp (s : string) : string :=
  match s with
  | EmptyString => EmptyString
  | String c rest =>
      match chomp rest with
      | EmptyString => if Ascii.eqb c "010" then EmptyString else String c EmptyString
      | r => String c r
      end
  end.

Section DetectCluster.

(** [grep -qi pattern] on this input: whether a line matches. *)
Variable grep_qi : string -> string -> bool.
(** What [echo -e] prints for this argument. *)
Variable echo_e : string -> string.

Definition log_warn (msg : string) : string :=
  echo_e (YELLOW +:+ "[WARN]" +:+ NC +:+ " " +:+ msg).

(** The standard output of [detect_cluster], given what
    [kubectl cluster-info] and [kubectl config current-context] print. *)
Definition detect_cluster (cluster_info_out context_out : string) : string :=
  let cluster_info := chomp cluster_info_out in
  if grep_qi "kind" (cluster_info +:+ nl) then "kind" +:+ nl
  else if grep_qi "minikube" (cluster_info +:+ nl) then "minikube" +:+ nl
  else if grep_qi "docker-desktop\|docker-for-desktop" (cluster_info +:+ nl) then
    "docker-desktop" +:+ nl
  else if grep_qi "docker-desktop\|docker-for-desktop" context_out then
    "docker-desktop" +:+ nl
  else
    let current_context := chomp context_out in
    log_warn "Could not detect cluster type from cluster-info" +:+
    log_warn ("Current context: " +:+ current_context) +:+
    log_warn "Assuming Docker Desktop (no image loading needed)" +:+
    "docker-desktop" +:+ nl.

(** [CLUSTER_TYPE=$(detect_cluster)] in [main]. *)
Definition CLUSTER_TYPE (cluster_info_out context_out : string) : string :=
  chomp (detect_cluster cluster_info_out context_out).

End DetectCluster.

(** What [load_image] does: the loading command it runs, nothing, or
    the exit with status 1 of the unknown cluster type. *)
Inductive loading : Type :=
| KindLoad (image : string)
| MinikubeLoad (image : string)
| NothingToLoad
| UnknownCluster (status : Z).

Definition load_image (cluster_type : string) : loading :=
  if String.eqb cluster_type "kind" then KindLoad IMAGE_NAME
  else if String.eqb cluster_type "minikube" then MinikubeLoad IMAGE_NAME
  else if String.eqb cluster_type "docker-desktop" then NothingToLoad
  else UnknownCluster 1.

(** Stand-ins for [echo -e] and [grep -qi] in the examples: the escape
    [\033] printed as ESC and a newline added; a search for the words of
    the pattern without regard to case. *)
Fixpoint render (s : string) : string :=
  match s with
  | String "\" (String "0" (String "3" (String "3" rest))) => String ESC (render rest)
  | String c rest => String c (render rest)
  | EmptyString => EmptyString
  end.

Definition echo (s : string) : string := render s +:+ nl.

Definition fold (c : ascii) : ascii :=
  let n := code_of c in
  if (65 <=? n) && (n <=? 90) then byte_of (n + 32) else c.

Fixpoint folded (s : string) : string :=
  match s with
  | EmptyString => EmptyString
  | String c rest => String (fold c) (folded rest)
  end.

Fixpoint occurs (needle hay : string) : bool :=
  String.prefix needle hay ||
  match hay with
  | EmptyString => false
  | String _ rest => occurs needle rest
  end.

Definition grep (pattern text : string) : bool :=
  if String.eqb pattern "docker-desktop\|docker-for-desktop" then
    occurs "docker-desktop" (folded text) || occurs "docker-for-desktop" (folded text)
  else occurs (folded pattern) (folded text).

End buildload.

(** ** Vocabulary of the statements *)

(** [needle] occurs in [hay]. *)
Definition Contains (needle hay : string) : Prop :=
  exists pre post, hay = pre +:+ needle +:+ post.

(** The body of a JSON response carrying [v]. *)
Definition jsonBody (v : json.any) : string := json.Marshal v +:+ nl.

Definition valueBody (v : Z) : string :=
  "{" +:+ dq +:+ "value" +:+ dq +:+ ":" +:+ strconv.FormatInt v +:+ "}" +:+ nl.

Definition errorBody (message : string) : string :=
  "{" +:+ dq +:+ "error" +:+ dq +:+ ":" +:+ dq +:+ message +:+ dq +:+ "}" +:+ nl.

(** The response writer of an invocation: a new recorder, whose [Write]
    reports [we]. *)
Definition writer (we : option error) : httptest.ResponseRecorder :=
  match we with
  | None => httptest.NewRecorder
  | Some e => httptest.failing e
  end.

(** What [writeJSON] logs when the [Write] of the body reports [we]. *)
Definition encodeLog (we : option error) : list (string * error) :=
  match we with
  | Some e => [("Failed to write JSON response"%string, e)]
  | None => []
  end.

(** A world given by its four components. *)
Definition world {S : Type} (c : S) (rw : httptest.ResponseRecorder)
    (lg : list (string * error)) (cs : list api.storeCall) : api.World S :=
  {| api.RedisClient := c; api.w := rw; api.slog := lg; api.calls := cs |}.

(** The content type of the response of route [rt] to request [r]: the
    metrics exposition is plain text, every other response is JSON. *)
Definition plain (rt : api.route) (r : http.Request) : bool :=
  match rt with
  | api.Metrics => String.eqb (http.Method r) "GET"
  | _ => false
  end.

Definition contentType (rt : api.route) (r : http.Request) : string :=
  if plain rt r then "text/plain; version=0.0.4; charset=utf-8" else "application/json".

(** A failure [e] reported by the [Write] of the body shows in the log
    of the invocation. *)
Definition loggedOnFailure {S : Type} `{Cmdable S}
    (rt : api.route) (r : http.Request) (c : S) (e : error) : Prop :=
  exists msg, (msg, e) ∈ api.slog (api.serve (api.handler rt) r (httptest.failing e) c).

(** Requests and stores of the examples. *)
Definition request (method url body : string) (c : Context) : http.Request :=
  {| http.Method := method; http.URL := url; http.ReqHeader := ∅;
     http.Body := body; http.ctx := c |}.

Definition mockAt (n : Z) : mock.mockRedisClient := {| mock.counter := n; mock.err := None |}.

Definition brokenPipe : error := errorString "write: broken pipe".
Definition refused : error := errorString "dial tcp: connection refused".

Definition postWrite : http.Request := request "POST" "/write" EmptyString Background.
Definition getWrite : http.Request := request "GET" "/write" EmptyString Background.
Definition getRead : http.Request := request "GET" "/read" EmptyString Background.
Definition getHealth : http.Request := request "GET" "/health" EmptyString Background.
Definition getMetrics : http.Request := request "GET" "/metrics" EmptyString Background.

Definition emptyStore : server.store := {| server.kv := ∅; server.down := None |}.
Definition storeWith (v : string) : server.store :=
  {| server.kv := {[ api.redisCounterKey := v ]}; server.down := None |}.
Definition downStore (e : error) : server.store :=
  {| server.kv := ∅; server.down := Some e |}.

(** The response on recorder [rw]: content type [ct] set, then status
    [status] committed, then [body] written, in this order and nothing
    else; the content type is among the headers sent. *)
Definition answered (rw : httptest.ResponseRecorder) (status : Z) (ct body : string) : Prop :=
  httptest.Code rw = status /\
  httptest.Body rw = body /\
  httptest.events rw =
    [httptest.EvHeaderSet "Content-Type" ct; httptest.EvWriteHeader status;
     httptest.EvWrite body] /\
  httptest.sent "Content-Type" rw = Some [ct].

(** The expected verb of each route. *)
Definition verb (rt : api.route) : string :=
  match rt with
  | api.Write => "POST"
  | _ => "GET"
  end.

(** A metric of the exposition format: its [# HELP] line, its [# TYPE]
    line, then the sample. *)
Definition metric (name help type sample : string) : string :=
  "# HELP " +:+ name +:+ " " +:+ help +:+ nl +:+
  "# TYPE " +:+ name +:+ " " +:+ type +:+ nl +:+
  name +:+ sample +:+ nl.

Definition exposition (val connected : Z) : string :=
  metric "tikky_counter_total" "Total counter value (goes brrr)" "counter"
         (" " +:+ strconv.FormatInt val) +:+ nl +:+
  metric "tikky_redis_connected" "Redis connection status (1=connected, 0=disconnected)" "gauge"
         (" " +:+ strconv.FormatInt connected) +:+ nl +:+
  metric "tikky_build_info" "Build information" "gauge"
         ("{version=" +:+ dq +:+ "1.0.0" +:+ dq +:+ ",service=" +:+ dq +:+ "tikky-api" +:+ dq +:+ "} 1").

(** * Properties *)

(** ** Strings *)

Lemma append_cons (x : ascii) (a b : string) : String x a +:+ b = String x (a +:+ b).
Proof. reflexivity. Qed.

Lemma append_assoc (a b c : string) : (a +:+ b) +:+ c = a +:+ (b +:+ c).
Proof.
  induction a as [|x a IH]; [reflexivity|].
  rewrite !append_cons. now f_equal.
Qed.

Lemma append_nil_r (a : string) : a +:+ EmptyString = a.
Proof.
  induction a as [|x a IH]; [reflexivity|].
  rewrite append_cons. now f_equal.
Qed.

Lemma length_append (a b : string) :
  String.length (a +:+ b) = (String.length a + String.length b)%nat.
Proof.
  induction a as [|x a IH]; [reflexivity|].
  rewrite append_cons. cbn [String.length]. rewrite IH. reflexivity.
Qed.

Lemma append_inj_l (a b c : string) : a +:+ c = b +:+ c -> a = b.
Proof.
  revert b. induction a as [|x a IH]; intros [|y b] E.
  - reflexivity.
  - apply (f_equal String.length) in E. rewrite !length_append in E.
    cbn [String.length] in E. lia.
  - apply (f_equal String.length) in E. rewrite !length_append in E.
    cbn [String.length] in E. lia.
  - rewrite !append_cons in E. injection E as -> E. f_equal. now apply IH.
Qed.

Lemma Contains_here (x post : string) : Contains x (x +:+ post).
Proof. exists EmptyString, post. reflexivity. Qed.

Lemma Contains_append_r (x pre s : string) : Contains x s -> Contains x (pre +:+ s).
Proof.
  intros (a & b & ->). exists (pre +:+ a), b. now rewrite append_assoc.
Qed.

(** ** Decimal formatting and parsing *)

Module strconv_facts.
Import strconv.

Lemma digitVal_digit (d : Z) : 0 <= d <= 9 -> digitVal (digit d) = Some d.
Proof.
  intros Hd.
  assert (d = 0 \/ d = 1 \/ d = 2 \/ d = 3 \/ d = 4 \/ d = 5 \/ d = 6 \/ d = 7 \/
          d = 8 \/ d = 9) as Hc by lia.
  repeat (destruct Hc as [-> | Hc]; [reflexivity|]). now subst.
Qed.

Lemma digit_not_sign (d : Z) :
  0 <= d <= 9 -> Ascii.eqb (digit d) "+" = false /\ Ascii.eqb (digit d) "-" = false.
Proof.
  intros Hd.
  assert (d = 0 \/ d = 1 \/ d = 2 \/ d = 3 \/ d = 4 \/ d = 5 \/ d = 6 \/ d = 7 \/
          d = 8 \/ d = 9) as Hc by lia.
  repeat (destruct Hc as [-> | Hc]; [split; reflexivity|]). now subst.
Qed.

(** One turn of the parsing loop on a digit that fits. *)
Lemma parseLoop_digit (d m : Z) (rest : string) :
  0 <= d <= 9 -> 0 <= m -> m * 10 + d <= MaxUint64 ->
  parseLoop (String (digit d) rest) m = parseLoop rest (m * 10 + d).
Proof.
  intros Hd Hm Hfit. cbn [parseLoop]. rewrite (digitVal_digit d Hd).
  unfold MaxUint64 in Hfit.
  destruct (10 <=? d) eqn:E1; [lia|].
  unfold cutoff, MaxUint64. change (18446744073709551615 / 10 + 1) with 1844674407370955162.
  destruct (1844674407370955162 <=? m) eqn:E2; [lia|].
  unfold uint64. change (2 ^ 64) with 18446744073709551616.
  rewrite (Z.mod_small (m * 10)) by lia.
  rewrite (Z.mod_small (m * 10 + d)) by lia.
  destruct (m * 10 + d <? m * 10) eqn:E3; [lia|].
  destruct (18446744073709551615 <? m * 10 + d) eqn:E4; [lia|].
  reflexivity.
Qed.

(** Parsing the digits written by [formatBits] shifts the accumulator
    by their number and adds their value. *)
Lemma parseLoop_formatBits (fuel : nat) :
  forall (u : Z) (acc : string) (n : Z),
    0 <= u < 10 ^ Z.of_nat fuel -> 0 <= n ->
    exists p, 0 < p /\
      (n * p + u <= MaxUint64 ->
       parseLoop (formatBits fuel u acc) n = parseLoop acc (n * p + u)).
Proof.
  induction fuel as [|fuel IH]; intros u acc n Hu Hn.
  - exists 1. split; [lia|]. intros _. simpl in *. f_equal. lia.
  - cbn [formatBits].
    assert (0 <= u mod 10 <= 9) as Hd by (pose proof (Z.mod_pos_bound u 10); lia).
    destruct (u <? 10) eqn:E.
    + exists 10. split; [lia|]. intros Hfit.
      rewrite Z.mod_small by lia. apply parseLoop_digit; lia.
    + assert (0 <= u / 10 < 10 ^ Z.of_nat fuel) as Hq.
      { rewrite Nat2Z.inj_succ, Z.pow_succ_r in Hu by lia.
        split; [apply Z.div_pos; lia | apply Z.div_lt_upper_bound; lia]. }
      destruct (IH (u / 10) (String (digit (u mod 10)) acc) n Hq Hn) as (p & Hp & Hrec).
      exists (10 * p). split; [lia|]. intros Hfit.
      pose proof (Z.div_mod u 10 ltac:(lia)) as Hdm.
      rewrite Hrec by nia.
      rewrite parseLoop_digit by nia.
      f_equal. lia.
Qed.

Lemma formatBits_head (fuel : nat) :
  forall (u : Z) (acc : string), 0 <= u ->
    exists d rest, 0 <= d <= 9 /\ formatBits (S fuel) u acc = String (digit d) rest.
Proof.
  induction fuel as [|fuel IH]; intros u acc Hu.
  - exists (u mod 10). cbn [formatBits].
    pose proof (Z.mod_pos_bound u 10).
    destruct (u <? 10); eexists; (split; [lia | reflexivity]).
  - cbn [formatBits]. pose proof (Z.mod_pos_bound u 10).
    destruct (u <? 10) eqn:E.
    + exists (u mod 10). eexists. split; [lia | reflexivity].
    + apply (IH (u / 10)). apply Z.div_pos; lia.
Qed.

Lemma ParseUint_formatBits (u : Z) :
  0 <= u <= MaxUint64 -> ParseUint (formatBits 20 u EmptyString) = (u, None).
Proof.
  intros Hu. unfold MaxUint64 in Hu.
  destruct (formatBits_head 19 u EmptyString) as (d & rest & Hd & E); [lia|].
  unfold ParseUint.
  destruct (parseLoop_formatBits 20 u EmptyString 0) as (p & Hp & Hrec); [lia | lia |].
  rewrite Hrec by (unfold MaxUint64; lia).
  rewrite E. simpl. reflexivity.
Qed.

(** Round trip: what [FormatInt] writes, [ParseInt] reads back. *)
Lemma ParseInt_FormatInt (i : Z) :
  MinInt64 <= i <= MaxInt64 -> ParseInt (FormatInt i) = (i, None).
Proof.
  unfold MinInt64, MaxInt64. intros Hi. unfold FormatInt.
  destruct (i <? 0) eqn:Hneg.
  - unfold ParseInt. change (Ascii.eqb "-" "+") with false. change (Ascii.eqb "-" "-") with true.
    cbv iota beta.
    rewrite ParseUint_formatBits by (unfold MaxUint64; lia).
    change (2 ^ 63) with 9223372036854775808.
    cbn [negb andb].
    destruct (9223372036854775808 <? - i) eqn:E; [lia|].
    f_equal. unfold int64. change (2 ^ 63) with 9223372036854775808.
    change (2 ^ 64) with 18446744073709551616.
    destruct (Z.eq_dec i (-9223372036854775808)) as [-> | Hne]; [reflexivity|].
    rewrite (Z.mod_small (- i + 9223372036854775808)) by lia.
    rewrite Z.mod_small by lia. lia.
  - destruct (formatBits_head 19 i EmptyString) as (d & rest & Hd & E); [lia|].
    pose proof (ParseUint_formatBits i ltac:(unfold MaxUint64; lia)) as HU.
    rewrite E in *. unfold ParseInt.
    destruct (digit_not_sign d Hd) as [-> ->]. cbv iota beta.
    rewrite HU.
    change (2 ^ 63) with 9223372036854775808. cbn [negb andb].
    destruct (9223372036854775808 <=? i) eqn:E2; [lia|].
    f_equal. unfold int64. change (2 ^ 63) with 9223372036854775808.
    change (2 ^ 64) with 18446744073709551616.
    rewrite Z.mod_small by lia. lia.
Qed.

Lemma FormatInt_inj (i j : Z) :
  MinInt64 <= i <= MaxInt64 -> MinInt64 <= j <= MaxInt64 ->
  FormatInt i = FormatInt j -> i = j.
Proof.
  intros Hi Hj E. pose proof (ParseInt_FormatInt i Hi) as Pi.
  rewrite E, (ParseInt_FormatInt j Hj) in Pi. congruence.
Qed.

Lemma int64_range (z : Z) : MinInt64 <= int64 z <= MaxInt64.
Proof.
  unfold int64, MinInt64, MaxInt64.
  change (2 ^ 63) with 9223372036854775808. change (2 ^ 64) with 18446744073709551616.
  pose proof (Z.mod_pos_bound (z + 9223372036854775808) 18446744073709551616). lia.
Qed.

(** A successful [ParseInt] returns a 64-bit integer. *)
Lemma ParseInt_range (s : string) (i : Z) :
  ParseInt s = (i, None) -> MinInt64 <= i <= MaxInt64.
Proof.
  unfold ParseInt. destruct s as [|c rest]; [discriminate|].
  destruct (if Ascii.eqb c "+" then (false, rest)
            else if Ascii.eqb c "-" then (true, rest) else (false, String c rest))
    as [neg s].
  destruct (ParseUint s) as [un [e|]].
  - destruct e as [|f n [|]| | |]; try discriminate;
      repeat (match goal with |- context [if ?b then _ else _] => destruct b end);
      try discriminate; intros [= <-]; apply int64_range.
  - repeat (match goal with |- context [if ?b then _ else _] => destruct b end);
      try discriminate; intros [= <-]; apply int64_range.
Qed.

End strconv_facts.

(** ** JSON bodies *)

Lemma jsonBody_value (v : Z) :
  jsonBody (json.MapStringInt64 {[ "value"%string := v ]}) = valueBody v.
Proof.
  unfold jsonBody, valueBody, json.Marshal, json.object.
  rewrite map_to_list_singleton. cbn [json.sortKeys foldr json.insertKey fmap list_fmap json.members fst snd].
  rewrite !append_assoc. reflexivity.
Qed.

Lemma jsonBody_error (message : string) :
  json.escape message = message ->
  jsonBody (json.MapStringString {[ "error"%string := message ]}) = errorBody message.
Proof.
  intros E. unfold jsonBody, errorBody, json.Marshal, json.object.
  rewrite map_to_list_singleton. cbn [json.sortKeys foldr json.insertKey fmap list_fmap json.members fst snd].
  unfold json.quote at 2. rewrite E. rewrite !append_assoc. reflexivity.
Qed.

Lemma valueBody_inj (u v : Z) :
  MinInt64 <= u <= MaxInt64 -> MinInt64 <= v <= MaxInt64 ->
  valueBody u = valueBody v -> u = v.
Proof.
  intros Hu Hv E. unfold valueBody in E.
  do 5 apply String.app_inj in E.
  apply append_inj_l in E. now apply strconv_facts.FormatInt_inj.
Qed.

(** ** The effect of [writeJSON] *)

Section Run.
Context {S : Type} `{Cmdable S}.
Import api.

Lemma writeJSON_spec (status : Z) (v : json.any) (σ : World S) :
  httptest.wroteHeader (w σ) = false ->
  let σ' := snd (writeJSON status v σ) in
  httptest.Code (w σ') = status /\
  httptest.Body (w σ') = httptest.Body (w σ) +:+ jsonBody v /\
  httptest.events (w σ') =
    httptest.events (w σ) ++
      [httptest.EvHeaderSet "Content-Type" "application/json";
       httptest.EvWriteHeader status; httptest.EvWrite (jsonBody v)] /\
  httptest.sent "Content-Type" (w σ') = Some ["application/json"%string] /\
  httptest.writeErr (w σ') = httptest.writeErr (w σ) /\
  slog σ' = slog σ ++ encodeLog (httptest.writeErr (w σ)) /\
  calls σ' = calls σ /\
  RedisClient σ' = RedisClient σ.
Proof.
  destruct σ as [c [code hm body wh snap we evs] lg cs]. cbn [w httptest.wroteHeader].
  intros ->.
  destruct we as [e|]; cbv zeta; repeat split.
  all: try reflexivity.
  all: try (cbn [slog encodeLog httptest.writeErr w]; rewrite app_nil_r; reflexivity).
  all: try (transitivity (((evs ++ [httptest.EvHeaderSet "Content-Type" "application/json"])
                             ++ [httptest.EvWriteHeader status]) ++ [httptest.EvWrite (jsonBody v)]);
            [reflexivity | rewrite <- !app_assoc; reflexivity]).
  all: unfold httptest.sent;
    change (Some (<["Content-Type"%string := ["application/json"%string]]> hm)
              ≫= lookup "Content-Type"%string = Some ["application/json"%string]);
    cbn [mbind option_bind]; apply lookup_insert_eq.
Qed.

Lemma writeJSONError_spec (status : Z) (message : string) (σ : World S) :
  httptest.wroteHeader (w σ) = false ->
  json.escape message = message ->
  let σ' := snd (writeJSONError status message σ) in
  httptest.Code (w σ') = status /\
  httptest.Body (w σ') = httptest.Body (w σ) +:+ errorBody message /\
  httptest.events (w σ') =
    httptest.events (w σ) ++
      [httptest.EvHeaderSet "Content-Type" "application/json";
       httptest.EvWriteHeader status; httptest.EvWrite (errorBody message)] /\
  httptest.sent "Content-Type" (w σ') = Some ["application/json"%string] /\
  httptest.writeErr (w σ') = httptest.writeErr (w σ) /\
  slog σ' = slog σ ++ encodeLog (httptest.writeErr (w σ)) /\
  calls σ' = calls σ /\
  RedisClient σ' = RedisClient σ.
Proof.
  intros Hf He. rewrite <- (jsonBody_error message He). now apply writeJSON_spec.
Qed.

(** The plain-text response of [MetricsHandler]: content type, status
    200, then the body in one [Write] whose result is dropped. *)
Lemma plain_spec (buf : string) (rw : httptest.ResponseRecorder) :
  httptest.wroteHeader rw = false ->
  let rw' := snd (httptest.Write buf
                    (httptest.WriteHeader http.StatusOK
                       (httptest.HeaderSet "Content-Type" "text/plain; version=0.0.4; charset=utf-8" rw))) in
  httptest.Code rw' = 200 /\
  httptest.Body rw' = httptest.Body rw +:+ buf /\
  httptest.events rw' =
    httptest.events rw ++
      [httptest.EvHeaderSet "Content-Type" "text/plain; version=0.0.4; charset=utf-8";
       httptest.EvWriteHeader 200; httptest.EvWrite buf] /\
  httptest.sent "Content-Type" rw' = Some ["text/plain; version=0.0.4; charset=utf-8"%string] /\
  httptest.writeErr rw' = httptest.writeErr rw.
Proof.
  destruct rw as [code hm body wh snap we evs]. cbn [httptest.wroteHeader].
  intros ->. cbv zeta. repeat split.
  all: try reflexivity.
  - transitivity (((evs ++ [httptest.EvHeaderSet "Content-Type" "text/plain; version=0.0.4; charset=utf-8"])
                     ++ [httptest.EvWriteHeader 200]) ++ [httptest.EvWrite buf]);
      [reflexivity | rewrite <- !app_assoc; reflexivity].
  - unfold httptest.sent.
    change (Some (<["Content-Type"%string := ["text/plain; version=0.0.4; charset=utf-8"%string]]> hm)
              ≫= lookup "Content-Type"%string = Some ["text/plain; version=0.0.4; charset=utf-8"%string]).
    cbn [mbind option_bind]. apply lookup_insert_eq.
Qed.

(** *** The handlers, branch by branch *)

Lemma WriteHandler_run (r : http.Request) (rw : httptest.ResponseRecorder) (c : S) :
  serve WriteHandler r rw c =
    if String.eqb (http.Method r) "POST" then
      let '(res, c') := Incr (http.ctx r) redisCounterKey c in
      match res with
      | (_, Some e) =>
          snd (writeJSONError 500 "Failed to update counter"
                 (world c' rw [("Failed to increment redis counter"%string, e)]
                    [CallIncr redisCounterKey res]))
      | (val, None) =>
          snd (writeJSON 200 (json.MapStringInt64 {[ "value"%string := val ]})
                 (world c' rw [] [CallIncr redisCounterKey res]))
      end
    else snd (writeJSONError 405 "Only POST method is allowed" (world c rw [] [])).
Proof.
  unfold serve, WriteHandler, http.MethodPost.
  destruct (String.eqb (http.Method r) "POST"); [|reflexivity].
  cbn [negb]. unfold bind at 1, incrResult, onClient. cbn [RedisClient w slog calls].
  destruct (Incr (http.ctx r) redisCounterKey c) as [[val [e|]] c']; reflexivity.
Qed.

Lemma ReadHandler_run (r : http.Request) (rw : httptest.ResponseRecorder) (c : S) :
  serve ReadHandler r rw c =
    if String.eqb (http.Method r) "GET" then
      let '(cmd, c') := Get (http.ctx r) redisCounterKey c in
      match redis.Int64 cmd with
      | (_, Some Nil) =>
          snd (writeJSON 200 (json.MapStringInt64 {[ "value"%string := 0 ]})
                 (world c' rw [] [CallGet redisCounterKey cmd]))
      | (_, Some e) =>
          snd (writeJSONError 500 "Failed to read counter"
                 (world c' rw [("Failed to read redis counter"%string, e)]
                    [CallGet redisCounterKey cmd]))
      | (val, None) =>
          snd (writeJSON 200 (json.MapStringInt64 {[ "value"%string := val ]})
                 (world c' rw [] [CallGet redisCounterKey cmd]))
      end
    else snd (writeJSONError 405 "Only GET method is allowed" (world c rw [] [])).
Proof.
  unfold serve, ReadHandler, http.MethodGet.
  destruct (String.eqb (http.Method r) "GET"); [|reflexivity].
  cbn [negb]. unfold bind at 1, getInt64, onClient, bind, ret. cbn [RedisClient w slog calls].
  destruct (Get (http.ctx r) redisCounterKey c) as [cmd c'].
  destruct (redis.Int64 cmd) as [val [[]|]]; reflexivity.
Qed.

Lemma HealthHandler_run (r : http.Request) (rw : httptest.ResponseRecorder) (c : S) :
  serve HealthHandler r rw c =
    if String.eqb (http.Method r) "GET" then
      let '(res, c') := Ping (http.ctx r) c in
      match res with
      | (_, Some e) =>
          snd (writeJSONError 503 "Redis unavailable"
                 (world c' rw [("Health check failed - Redis connectivity"%string, e)]
                    [CallPing res]))
      | (_, None) =>
          snd (writeJSON 200 (json.MapStringString healthPayload)
                 (world c' rw [] [CallPing res]))
      end
    else snd (writeJSONError 405 "Only GET method is allowed" (world c rw [] [])).
Proof.
  unfold serve, HealthHandler, http.MethodGet.
  destruct (String.eqb (http.Method r) "GET"); [|reflexivity].
  cbn [negb]. unfold bind at 1, pingResult, onClient. cbn [RedisClient w slog calls].
  destruct (Ping (http.ctx r) c) as [[val [e|]] c']; reflexivity.
Qed.

Lemma MetricsHandler_run (r : http.Request) (rw : httptest.ResponseRecorder) (c : S) :
  serve MetricsHandler r rw c =
    if String.eqb (http.Method r) "GET" then
      let '(cmd, c1) := Get (http.ctx r) redisCounterKey c in
      let '(pong, c2) := Ping (http.ctx r) c1 in
      let '(val, lg) :=
        match redis.Int64 cmd with
        | (_, Some Nil) => (0, [])
        | (_, Some e) => (-1, [("Failed to read counter for metrics"%string, e)])
        | (val, None) => (val, [])
        end in
      let redisConnected := match snd pong with Some _ => 0 | None => 1 end in
      world c2
        (snd (httptest.Write (fmt.Sprintf metrics [val; redisConnected])
                (httptest.WriteHeader http.StatusOK
                   (httptest.HeaderSet "Content-Type" "text/plain; version=0.0.4; charset=utf-8" rw))))
        lg [CallGet redisCounterKey cmd; CallPing pong]
    else snd (writeJSONError 405 "Only GET method is allowed" (world c rw [] [])).
Proof.
  unfold serve, MetricsHandler, http.MethodGet.
  destruct (String.eqb (http.Method r) "GET"); [|reflexivity].
  cbn [negb]. unfold getInt64, pingResult, onClient, headerSet, writeHeader, write,
    onWriter, slogError, bind, ret.
  cbv beta. cbn [RedisClient w slog calls].
  destruct (Get (http.ctx r) redisCounterKey c) as [cmd c1].
  cbv beta iota zeta. cbn [RedisClient w slog calls].
  destruct (redis.Int64 cmd) as [val [[]|]];
    cbv beta iota zeta; cbn [RedisClient w slog calls];
    destruct (Ping (http.ctx r) c1) as [pong c2]; reflexivity.
Qed.

End Run.

(** ** Responses on a new recorder *)

Section Outcomes.
Context {S : Type} `{Cmdable S}.
Import api.

Lemma writer_fresh (we : option error) :
  httptest.wroteHeader (writer we) = false /\ httptest.Body (writer we) = EmptyString /\
  httptest.events (writer we) = [] /\ httptest.writeErr (writer we) = we.
Proof. destruct we; repeat split; reflexivity. Qed.

Lemma writeJSON_fresh (status : Z) (v : json.any) (c : S) (we : option error)
    (lg : list (string * error)) (cs : list storeCall) :
  let σ := snd (writeJSON status v (world c (writer we) lg cs)) in
  answered (w σ) status "application/json" (jsonBody v) /\
  slog σ = lg ++ encodeLog we /\
  calls σ = cs /\
  RedisClient σ = c.
Proof.
  destruct (writer_fresh we) as (Hf & Hb & He & Hw).
  destruct (writeJSON_spec status v (world c (writer we) lg cs) Hf)
    as (HC & HB & HE & HS & _ & HL & HK & HR).
  cbn [world w slog calls RedisClient] in *.
  rewrite Hb in HB. rewrite He in HE. rewrite Hw in HL.
  unfold answered. repeat split; assumption.
Qed.

Lemma writeJSONError_fresh (status : Z) (message : string) (c : S) (we : option error)
    (lg : list (string * error)) (cs : list storeCall) :
  json.escape message = message ->
  let σ := snd (writeJSONError status message (world c (writer we) lg cs)) in
  answered (w σ) status "application/json" (errorBody message) /\
  slog σ = lg ++ encodeLog we /\
  calls σ = cs /\
  RedisClient σ = c.
Proof.
  intros E. rewrite <- (jsonBody_error message E). apply writeJSON_fresh.
Qed.

Lemma plain_fresh (buf : string) (we : option error) :
  answered (snd (httptest.Write buf
                   (httptest.WriteHeader http.StatusOK
                      (httptest.HeaderSet "Content-Type"
                         "text/plain; version=0.0.4; charset=utf-8" (writer we)))))
           200 "text/plain; version=0.0.4; charset=utf-8" buf.
Proof.
  destruct (writer_fresh we) as (Hf & Hb & He & Hw).
  destruct (plain_spec buf (writer we) Hf) as (HC & HB & HE & HS & _).
  rewrite Hb in HB. rewrite He in HE. unfold answered. repeat split; assumption.
Qed.

Lemma Sprintf_metrics (val connected : Z) :
  fmt.Sprintf metrics [val; connected] = exposition val connected.
Proof. unfold exposition, metric. rewrite !append_assoc. reflexivity. Qed.

(** *** What each handler answers, by method and store replies *)

Lemma rejected (rt : route) (r : http.Request) (c : S) (we : option error) :
  String.eqb (http.Method r) (verb rt) = false ->
  let σ := serve (handler rt) r (writer we) c in
  answered (w σ) 405 "application/json"
           (errorBody ("Only " +:+ verb rt +:+ " method is allowed")) /\
  slog σ = encodeLog we /\ calls σ = [] /\ RedisClient σ = c.
Proof.
  intros Hm σ. subst σ.
  destruct rt; cbn [handler verb] in *;
    rewrite ?WriteHandler_run, ?ReadHandler_run, ?HealthHandler_run, ?MetricsHandler_run, Hm;
    exact (writeJSONError_fresh 405 _ c we [] [] eq_refl).
Qed.

Lemma WriteHandler_outcome (r : http.Request) (c : S) (we : option error) :
  http.Method r = "POST"%string ->
  let σ := serve WriteHandler r (writer we) c in
  let reply := fst (Incr (http.ctx r) redisCounterKey c) in
  calls σ = [CallIncr redisCounterKey reply] /\
  RedisClient σ = snd (Incr (http.ctx r) redisCounterKey c) /\
  match reply with
  | (_, Some e) =>
      answered (w σ) 500 "application/json" (errorBody "Failed to update counter") /\
      slog σ = [("Failed to increment redis counter"%string, e)] ++ encodeLog we
  | (val, None) =>
      answered (w σ) 200 "application/json" (valueBody val) /\ slog σ = encodeLog we
  end.
Proof.
  intros Hm σ reply. subst σ reply. rewrite WriteHandler_run, Hm.
  change (String.eqb "POST" "POST") with true. cbv iota.
  destruct (Incr (http.ctx r) redisCounterKey c) as [[val [e|]] c']; cbn [fst snd].
  - destruct (writeJSONError_fresh 500 "Failed to update counter" c' we
                [("Failed to increment redis counter"%string, e)]
                [CallIncr redisCounterKey (val, Some e)] eq_refl) as (HA & HL & HK & HR).
    auto.
  - destruct (writeJSON_fresh 200 (json.MapStringInt64 {[ "value"%string := val ]}) c' we []
                [CallIncr redisCounterKey (val, None)]) as (HA & HL & HK & HR).
    rewrite jsonBody_value in HA. auto.
Qed.

Lemma ReadHandler_outcome (r : http.Request) (c : S) (we : option error) :
  http.Method r = "GET"%string ->
  let σ := serve ReadHandler r (writer we) c in
  let cmd := fst (Get (http.ctx r) redisCounterKey c) in
  calls σ = [CallGet redisCounterKey cmd] /\
  RedisClient σ = snd (Get (http.ctx r) redisCounterKey c) /\
  match redis.Int64 cmd with
  | (_, Some Nil) =>
      answered (w σ) 200 "application/json" (valueBody 0) /\ slog σ = encodeLog we
  | (_, Some e) =>
      answered (w σ) 500 "application/json" (errorBody "Failed to read counter") /\
      slog σ = [("Failed to read redis counter"%string, e)] ++ encodeLog we
  | (val, None) =>
      answered (w σ) 200 "application/json" (valueBody val) /\ slog σ = encodeLog we
  end.
Proof.
  intros Hm σ cmd. subst σ cmd. rewrite ReadHandler_run, Hm.
  change (String.eqb "GET" "GET") with true. cbv iota.
  destruct (Get (http.ctx r) redisCounterKey c) as [cmd c']; cbn [fst snd].
  destruct (redis.Int64 cmd) as [val [e|]].
  - destruct e;
      [ destruct (writeJSON_fresh 200 (json.MapStringInt64 {[ "value"%string := 0 ]}) c' we []
                    [CallGet redisCounterKey cmd]) as (HA & HL & HK & HR);
        rewrite jsonBody_value in HA; auto
      | match goal with
        | |- context [("Failed to read redis counter"%string, ?e)] =>
            destruct (writeJSONError_fresh 500 "Failed to read counter" c' we
                        [("Failed to read redis counter"%string, e)]
                        [CallGet redisCounterKey cmd] eq_refl) as (HA & HL & HK & HR); auto
        end .. ].
  - destruct (writeJSON_fresh 200 (json.MapStringInt64 {[ "value"%string := val ]}) c' we []
                [CallGet redisCounterKey cmd]) as (HA & HL & HK & HR).
    rewrite jsonBody_value in HA. auto.
Qed.

Lemma HealthHandler_outcome (r : http.Request) (c : S) (we : option error) :
  http.Method r = "GET"%string ->
  let σ := serve HealthHandler r (writer we) c in
  let reply := fst (Ping (http.ctx r) c) in
  calls σ = [CallPing reply] /\
  RedisClient σ = snd (Ping (http.ctx r) c) /\
  match snd reply with
  | Some e =>
      answered (w σ) 503 "application/json" (errorBody "Redis unavailable") /\
      slog σ = [("Health check failed - Redis connectivity"%string, e)] ++ encodeLog we
  | None =>
      answered (w σ) 200 "application/json" (jsonBody (json.MapStringString healthPayload)) /\
      slog σ = encodeLog we
  end.
Proof.
  intros Hm σ reply. subst σ reply. rewrite HealthHandler_run, Hm.
  change (String.eqb "GET" "GET") with true. cbv iota.
  destruct (Ping (http.ctx r) c) as [[val [e|]] c']; cbn [fst snd].
  - destruct (writeJSONError_fresh 503 "Redis unavailable" c' we
                [("Health check failed - Redis connectivity"%string, e)]
                [CallPing (val, Some e)] eq_refl) as (HA & HL & HK & HR).
    auto.
  - destruct (writeJSON_fresh 200 (json.MapStringString healthPayload) c' we []
                [CallPing (val, None)]) as (HA & HL & HK & HR).
    auto.
Qed.

Lemma MetricsHandler_outcome (r : http.Request) (c : S) (we : option error) :
  http.Method r = "GET"%string ->
  let σ := serve MetricsHandler r (writer we) c in
  let cmd := fst (Get (http.ctx r) redisCounterKey c) in
  let c1 := snd (Get (http.ctx r) redisCounterKey c) in
  let pong := fst (Ping (http.ctx r) c1) in
  let connected := match snd pong with Some _ => 0 | None => 1 end in
  calls σ = [CallGet redisCounterKey cmd; CallPing pong] /\
  RedisClient σ = snd (Ping (http.ctx r) c1) /\
  match redis.Int64 cmd with
  | (_, Some Nil) =>
      answered (w σ) 200 "text/plain; version=0.0.4; charset=utf-8" (exposition 0 connected) /\
      slog σ = []
  | (_, Some e) =>
      answered (w σ) 200 "text/plain; version=0.0.4; charset=utf-8" (exposition (-1) connected) /\
      slog σ = [("Failed to read counter for metrics"%string, e)]
  | (val, None) =>
      answered (w σ) 200 "text/plain; version=0.0.4; charset=utf-8" (exposition val connected) /\
      slog σ = []
  end.
Proof.
  intros Hm σ cmd c1 pong connected. subst σ cmd c1 pong connected.
  rewrite MetricsHandler_run, Hm.
  change (String.eqb "GET" "GET") with true. cbv iota.
  destruct (Get (http.ctx r) redisCounterKey c) as [cmd c1]; cbn [fst snd].
  destruct (Ping (http.ctx r) c1) as [pong c2]; cbn [fst snd].
  destruct (redis.Int64 cmd) as [val [[]|]]; cbv iota beta zeta;
    rewrite Sprintf_metrics; cbn [world w slog calls RedisClient];
    (split; [reflexivity | split; [reflexivity | split; [apply plain_fresh | reflexivity]]]).
Qed.

End Outcomes.

(** ** Facts about the test double and the store model *)

Lemma ParseInt_error_not_Nil (s : string) (i : Z) (e : error) :
  strconv.ParseInt s = (i, Some e) -> e <> Nil.
Proof.
  unfold strconv.ParseInt. destruct s as [|ch rest]; [intros [= <- <-]; discriminate|].
  destruct (if Ascii.eqb ch "+" then (false, rest)
            else if Ascii.eqb ch "-" then (true, rest) else (false, String ch rest))
    as [neg s].
  destruct (strconv.ParseUint s) as [un [e'|]].
  - destruct e' as [|f n [|]| | |];
      repeat (match goal with |- context [if ?b then _ else _] => destruct b end);
      intros [= <- <-] || intros [=]; discriminate.
  - repeat (match goal with |- context [if ?b then _ else _] => destruct b end);
      intros [= <- <-] || intros [=]; discriminate.
Qed.

Lemma Int64_unparseable (s : string) :
  snd (strconv.ParseInt s) <> None ->
  exists i e, redis.Int64 (s, None) = (i, Some e) /\ e <> Nil.
Proof.
  intros Hp. unfold redis.Int64. cbn [fst snd].
  destruct (strconv.ParseInt s) as [i [e|]] eqn:E; [|now destruct Hp].
  exists i, e. split; [reflexivity | now apply ParseInt_error_not_Nil in E].
Qed.

Lemma integer_sound (v : string) (i : Z) :
  server.integer v = Some i ->
  strconv.ParseInt v = (i, None) /\ MinInt64 <= i <= MaxInt64.
Proof.
  unfold server.integer. destruct (strconv.ParseInt v) as [j [e|]] eqn:E; [discriminate|].
  destruct (String.eqb (strconv.FormatInt j) v); [|discriminate].
  intros [= <-]. split; [reflexivity | now apply strconv_facts.ParseInt_range in E].
Qed.

(** The store model increments atomically: a successful [Incr] returns
    the old counter plus one and leaves it as the new counter. *)
Lemma server_incr_atomic (ctx : Context) (s s' : server.store) (v : Z) :
  Incr ctx api.redisCounterKey s = ((v, None), s') ->
  v = server.counterOf s + 1 /\ server.counterOf s' = v.
Proof.
  cbn [Incr server.client]. unfold server.Incr, server.counterOf.
  destruct (server.unavailable ctx s); [discriminate|].
  destruct (server.kv s !! api.redisCounterKey) as [old|] eqn:E.
  - destruct (server.integer old) as [i|] eqn:Ei; [|discriminate].
    destruct (integer_sound old i Ei) as [Hp Hr].
    destruct (MaxInt64 <=? i) eqn:Hmax; [discriminate|].
    intros [= <- <-]. cbn [server.kv]. rewrite lookup_insert_eq, Hp.
    rewrite strconv_facts.ParseInt_FormatInt by (unfold MaxInt64, MinInt64 in *; lia).
    split; reflexivity.
  - intros [= <- <-]. cbn [server.kv]. rewrite lookup_insert_eq. split; reflexivity.
Qed.

(** * The handlers against their specification *)

Section Operations.
Context {S : Type} `{Cmdable S}.
Import api.

(** C1. A POST to /write whose increment succeeds with value [v] is
    answered with status 200 and the body {value: v}, [v] being the
    value the store returned for the increment: one call was made, the
    client is left in the state after it, and no other 64-bit integer
    has this body. *)
Theorem WriteHandler_success (r : http.Request) (c c' : S) (v : Z) (we : option error) :
  http.Method r = "POST"%string ->
  Incr (http.ctx r) redisCounterKey c = ((v, None), c') ->
  let σ := serve WriteHandler r (writer we) c in
  httptest.Code (w σ) = 200 /\
  httptest.Body (w σ) = valueBody v /\
  calls σ = [CallIncr redisCounterKey (v, None)] /\
  RedisClient σ = c' /\
  (forall u : Z, MinInt64 <= u <= MaxInt64 -> MinInt64 <= v <= MaxInt64 ->
                 httptest.Body (w σ) = valueBody u -> u = v).
Proof.
  intros Hm Hi σ.
  destruct (WriteHandler_outcome r c we Hm) as (HK & HR & HA). fold σ in HK, HR, HA.
  rewrite Hi in HK, HR, HA. cbn [fst snd] in *.
  destruct HA as ((HC & HB & _) & _).
  repeat split; try assumption.
  intros u Hu Hv E. rewrite HB in E. symmetry. now apply valueBody_inj.
Qed.

(** C2. A GET to /read for which the store reports the counter key
    absent is answered with status 200 and the body {value: 0}; the
    absence is no error: nothing is logged for it. *)
Theorem ReadHandler_absent (r : http.Request) (c c' : S) (val : string) (we : option error) :
  http.Method r = "GET"%string ->
  Get (http.ctx r) redisCounterKey c = ((val, Some Nil), c') ->
  let σ := serve ReadHandler r (writer we) c in
  httptest.Code (w σ) = 200 /\
  httptest.Body (w σ) = valueBody 0 /\
  slog σ = encodeLog we.
Proof.
  intros Hm Hg σ.
  destruct (ReadHandler_outcome r c we Hm) as (_ & _ & HA). fold σ in HA.
  rewrite Hg in HA. cbn [fst snd redis.Int64] in HA. unfold redis.Int64 in HA.
  cbn [fst snd] in HA. destruct HA as ((HC & HB & _) & HL). auto.
Qed.

(** C3. On each of the four routes a request whose method is not the
    expected verb (POST for /write, GET for /read, /health and
    /metrics) is answered with status 405 and the body
    {error: Only VERB method is allowed}, and no call is made on the
    store: the trace of calls is empty and the client is untouched. *)
Theorem wrong_method_rejected (rt : route) (r : http.Request) (c : S) (we : option error) :
  http.Method r <> verb rt ->
  let σ := serve (handler rt) r (writer we) c in
  httptest.Code (w σ) = 405 /\
  httptest.Body (w σ) = errorBody ("Only " +:+ verb rt +:+ " method is allowed") /\
  calls σ = [] /\
  RedisClient σ = c.
Proof.
  intros Hm σ. apply String.eqb_neq in Hm.
  destruct (rejected rt r c we Hm) as ((HC & HB & _) & _ & HK & HR). auto.
Qed.

(** C5. A POST to /write whose increment fails, with whatever error, is
    answered with status 500 and exactly the body
    {error: Failed to update counter}; the store's error goes to the
    log and the body is the same for every error. *)
Theorem WriteHandler_store_error (r : http.Request) (c c' : S) (v : Z) (e : error)
    (we : option error) :
  http.Method r = "POST"%string ->
  Incr (http.ctx r) redisCounterKey c = ((v, Some e), c') ->
  let σ := serve WriteHandler r (writer we) c in
  httptest.Code (w σ) = 500 /\
  httptest.Body (w σ) = errorBody "Failed to update counter" /\
  slog σ = [("Failed to increment redis counter"%string, e)] ++ encodeLog we.
Proof.
  intros Hm Hi σ.
  destruct (WriteHandler_outcome r c we Hm) as (_ & _ & HA). fold σ in HA.
  rewrite Hi in HA. cbn [fst snd] in HA. destruct HA as ((HC & HB & _) & HL). auto.
Qed.

(** C7. A GET to /health is answered with status 200 and the JSON
    object of the four fields status: healthy, service: tikky-api,
    redis: connected and vibe: immaculate exactly when the liveness
    probe succeeds, and with status 503 and the body
    {error: Redis unavailable} exactly when the probe returns an error. *)
Theorem HealthHandler_probe (r : http.Request) (c : S) (we : option error) :
  http.Method r = "GET"%string ->
  let σ := serve HealthHandler r (writer we) c in
  let probe := snd (fst (Ping (http.ctx r) c)) in
  (probe = None <->
     httptest.Code (w σ) = 200 /\
     httptest.Body (w σ) = jsonBody (json.MapStringString healthPayload)) /\
  (probe <> None <->
     httptest.Code (w σ) = 503 /\
     httptest.Body (w σ) = errorBody "Redis unavailable") /\
  healthPayload !! "status"%string = Some "healthy"%string /\
  healthPayload !! "service"%string = Some "tikky-api"%string /\
  healthPayload !! "redis"%string = Some "connected"%string /\
  healthPayload !! "vibe"%string = Some "immaculate"%string /\
  size healthPayload = 4%nat.
Proof.
  intros Hm σ probe.
  destruct (HealthHandler_outcome r c we Hm) as (_ & _ & HA). fold σ probe in HA.
  split; [|split; [|repeat split; reflexivity]].
  - destruct probe as [e|]; destruct HA as ((HC & HB & _) & _).
    + split; [discriminate|]. intros [HC' _]. rewrite HC in HC'. discriminate.
    + split; auto.
  - destruct probe as [e|]; destruct HA as ((HC & HB & _) & _).
    + split; [auto | discriminate].
    + split; [congruence|]. intros [HC' _]. rewrite HC in HC'. discriminate.
Qed.

(** C4. A GET to /metrics is answered with status 200 whatever the
    store replies.  The exported counter is 0 when the key is absent,
    the sentinel -1 when the read fails otherwise (a value that does
    not parse included) and the value read else; the connectivity gauge
    is 1 when the probe succeeds and 0 when it fails.  The body holds
    each of the three metrics with its HELP line and its TYPE line in
    front of the sample. *)
Theorem MetricsHandler_always_ok (r : http.Request) (c : S) (we : option error) :
  http.Method r = "GET"%string ->
  let σ := serve MetricsHandler r (writer we) c in
  let got := Get (http.ctx r) redisCounterKey c in
  let probe := snd (fst (Ping (http.ctx r) (snd got))) in
  httptest.Code (w σ) = 200 /\
  (exists val connected : Z,
      httptest.Body (w σ) = exposition val connected /\
      (snd (fst got) = Some Nil -> val = 0) /\
      (forall e, snd (fst got) = Some e -> e <> Nil -> val = -1) /\
      (forall s i, fst got = (s, None) -> strconv.ParseInt s = (i, None) -> val = i) /\
      (forall s, fst got = (s, None) -> snd (strconv.ParseInt s) <> None -> val = -1) /\
      (probe = None -> connected = 1) /\
      (probe <> None -> connected = 0)) /\
  (forall name : string,
      name ∈ ["tikky_counter_total"; "tikky_redis_connected"; "tikky_build_info"]%string ->
      exists help type sample,
        Contains (metric name help type sample) (httptest.Body (w σ))).
Proof.
  intros Hm σ got probe.
  destruct (MetricsHandler_outcome r c we Hm) as (_ & _ & HA). fold σ got probe in HA.
  cbv zeta in HA.
  set (connected := match probe with Some _ => 0 | None => 1 end) in HA.
  assert (exists val, answered (w σ) 200 "text/plain; version=0.0.4; charset=utf-8"
                               (exposition val connected) /\
            (snd (fst got) = Some Nil -> val = 0) /\
            (forall e, snd (fst got) = Some e -> e <> Nil -> val = -1) /\
            (forall s i, fst got = (s, None) -> strconv.ParseInt s = (i, None) -> val = i) /\
            (forall s, fst got = (s, None) -> snd (strconv.ParseInt s) <> None -> val = -1))
    as (val & (HC & HB & _) & H0 & H1 & H2 & H3).
  { destruct (fst got) as [s [e|]]; unfold redis.Int64 in HA; cbn [fst snd] in HA |- *.
    - destruct e; [exists 0 | exists (-1) ..]; destruct HA as (HA & _);
        (split; [exact HA|]); repeat split; try congruence; try discriminate.
    - destruct (strconv.ParseInt s) as [i [e|]] eqn:E.
      + pose proof (ParseInt_error_not_Nil s i e E) as Hn.
        destruct e; [now destruct Hn| ..]; exists (-1); destruct HA as (HA & _);
          (split; [exact HA|]); repeat split; try congruence; try discriminate.
      + exists i. destruct HA as (HA & _). split; [exact HA|].
        repeat split; try congruence; try discriminate.
        intros s' [= <-] Hp. rewrite E in Hp. now destruct Hp. }
  split; [exact HC|]. split.
  - exists val, connected. repeat split; try assumption.
    + intros Hp. subst connected. now rewrite Hp.
    + intros Hp. subst connected. destruct probe; [reflexivity | now destruct Hp].
  - intros name Hin. rewrite HB. unfold exposition.
    apply list_elem_of_In in Hin. cbn [In] in Hin.
    destruct Hin as [<- | [<- | [<- | []]]]; do 3 eexists.
    + apply Contains_here.
    + apply Contains_append_r, Contains_append_r, Contains_here.
    + apply Contains_append_r, Contains_append_r, Contains_append_r, Contains_append_r.
      exists EmptyString, EmptyString. rewrite append_nil_r. reflexivity.
Qed.

(** C9. A GET to /read for which the store returns a present value that
    does not parse as a 64-bit integer is answered with status 500 and
    the body {error: Failed to read counter}, the very response (status,
    body, headers, writer calls) given when the read fails with a store
    error, on any store; [MetricsHandler] answers the same condition
    with status 200 and the sentinel -1. *)
Theorem unparseable_counter (r : http.Request) (c c' : S) (s : string) (we : option error) :
  http.Method r = "GET"%string ->
  Get (http.ctx r) redisCounterKey c = ((s, None), c') ->
  snd (strconv.ParseInt s) <> None ->
  let σ := serve ReadHandler r (writer we) c in
  let μ := serve MetricsHandler r (writer we) c in
  httptest.Code (w σ) = 500 /\
  httptest.Body (w σ) = errorBody "Failed to read counter" /\
  (forall (T : Type) (HT : Cmdable T) (d d' : T) (val : string) (e : error),
      e <> Nil ->
      Get (http.ctx r) redisCounterKey d = ((val, Some e), d') ->
      let τ := serve ReadHandler r (writer we) d in
      httptest.Code (w τ) = httptest.Code (w σ) /\
      httptest.Body (w τ) = httptest.Body (w σ) /\
      httptest.events (w τ) = httptest.events (w σ) /\
      httptest.sent "Content-Type" (w τ) = httptest.sent "Content-Type" (w σ)) /\
  httptest.Code (w μ) = 200 /\
  (exists connected, httptest.Body (w μ) = exposition (-1) connected).
Proof.
  intros Hm Hg Hp σ μ.
  destruct (Int64_unparseable s Hp) as (i & e & Ei & Hn).
  destruct (ReadHandler_outcome r c we Hm) as (_ & _ & HA). fold σ in HA.
  rewrite Hg in HA. cbn [fst] in HA. rewrite Ei in HA.
  assert (answered (w σ) 500 "application/json" (errorBody "Failed to read counter"))
    as (HC & HB & HE & HS) by (destruct e; [now destruct Hn | apply HA ..]).
  split; [exact HC|]. split; [exact HB|]. split.
  - intros T HT d d' val e' Hn' Hg' τ.
    destruct (ReadHandler_outcome (S := T) r d we Hm) as (_ & _ & HA'). fold τ in HA'.
    rewrite Hg' in HA'. unfold redis.Int64 in HA'. cbn [fst snd] in HA'.
    assert (answered (w τ) 500 "application/json" (errorBody "Failed to read counter"))
      as (HC' & HB' & HE' & HS') by (destruct e'; [now destruct Hn' | apply HA' ..]).
    rewrite HC, HB, HE, HS. auto.
  - destruct (MetricsHandler_outcome r c we Hm) as (_ & _ & HM). fold μ in HM.
    cbv zeta in HM. rewrite Hg in HM. cbn [fst] in HM. rewrite Ei in HM.
    destruct e; [now destruct Hn | ..]; destruct HM as ((HC' & HB' & _) & _);
      (split; [exact HC' | eexists; exact HB']).
Qed.

End Operations.

(** ** Sequential increments *)

Section Sequential.
Context {S : Type} `{Cmdable S}.
Import api.

(** The store's contract for the atomic increment, in terms of the
    counter [counterOf] it holds (0 when the key is absent): a
    successful [Incr] returns the counter plus one and leaves that
    value behind. *)
Variable counterOf : S -> Z.
Hypothesis incr_atomic :
  forall (ctx : Context) (c c' : S) (v : Z),
    Incr ctx redisCounterKey c = ((v, None), c') ->
    v = counterOf c + 1 /\ counterOf c' = v.

(** C6. When POST requests to /write are served one after the other and
    all succeed, on a store whose counter is [p] at the start, the body
    of the k-th response carries p + k: every request is answered, and
    no value is skipped or repeated. *)
Theorem sequential_writes (rs : list http.Request) (c : S) :
  Forall (fun r => http.Method r = "POST"%string) rs ->
  Forall (fun rw => httptest.Code rw = 200) (serveAll WriteHandler rs c) ->
  length (serveAll WriteHandler rs c) = length rs /\
  forall (k : nat) (rw : httptest.ResponseRecorder),
    serveAll WriteHandler rs c !! k = Some rw ->
    httptest.Body rw = valueBody (counterOf c + Z.of_nat (Datatypes.S k)).
Proof.
  revert c. induction rs as [|r rs IH]; intros c HP H200.
  - split; [reflexivity | intros k rw Hk; discriminate].
  - apply Forall_cons in HP as [Hm HP]. cbn [serveAll] in *.
    apply Forall_cons in H200 as [HC H200].
    destruct (WriteHandler_outcome r c None Hm) as (_ & HR & HA).
    change (writer None) with httptest.NewRecorder in *.
    destruct (Incr (http.ctx r) redisCounterKey c) as [[v [e|]] c'] eqn:Ei;
      cbn [fst snd] in *.
    + destruct HA as ((HC' & _) & _). rewrite HC in HC'. discriminate.
    + destruct HA as ((_ & HB & _) & _).
      destruct (incr_atomic _ _ _ _ Ei) as [Hv Hc'].
      rewrite HR in *. destruct (IH c' HP H200) as [Hlen Hrest].
      split; [cbn [length]; now rewrite Hlen|].
      intros [|k] rw Hk; cbn [lookup list_lookup] in Hk.
      * injection Hk as <-. rewrite HB, Hv. reflexivity.
      * rewrite (Hrest k rw Hk), Hc', Hv. f_equal. lia.
Qed.

End Sequential.

(** ** Responses as a whole *)

Section Responses.
Context {S : Type} `{Cmdable S}.
Import api.

(** Status, body and store-side log of an invocation do not depend on
    what the [Write] of the body reports. *)
Lemma answer_independent_of_writer (rt : route) (r : http.Request) (c : S) :
  exists (status : Z) (body : string) (lg : list (string * error)),
    forall we : option error,
      let σ := serve (handler rt) r (writer we) c in
      answered (w σ) status (contentType rt r) body /\
      slog σ = lg ++ (if plain rt r then [] else encodeLog we).
Proof.
  destruct (String.eqb (http.Method r) (verb rt)) eqn:Hv.
  - apply String.eqb_eq in Hv.
    destruct rt; cbn [verb handler] in *; unfold contentType, plain; rewrite ?Hv;
      change (String.eqb "GET" "GET") with true; cbv iota.
    + destruct (Incr (http.ctx r) redisCounterKey c) as [[v [e|]] c'] eqn:E;
        do 3 eexists; intros we;
        destruct (WriteHandler_outcome r c we Hv) as (_ & _ & HA);
        rewrite E in HA; cbn [fst snd] in HA; destruct HA as [HA HL];
        (split; [exact HA | rewrite HL; first [reflexivity | exact (eq_refl ([] ++ _))]]).
    + destruct (redis.Int64 (fst (Get (http.ctx r) redisCounterKey c))) as [v [[]|]] eqn:E;
        do 3 eexists; intros we;
        destruct (ReadHandler_outcome r c we Hv) as (_ & _ & HA);
        cbv zeta in HA; rewrite E in HA; destruct HA as [HA HL];
        (split; [exact HA | rewrite HL; first [reflexivity | exact (eq_refl ([] ++ _))]]).
    + destruct (snd (fst (Ping (http.ctx r) c))) as [e|] eqn:E;
        do 3 eexists; intros we;
        destruct (HealthHandler_outcome r c we Hv) as (_ & _ & HA);
        cbv zeta in HA; rewrite E in HA; destruct HA as [HA HL];
        (split; [exact HA | rewrite HL; first [reflexivity | exact (eq_refl ([] ++ _))]]).
    + destruct (redis.Int64 (fst (Get (http.ctx r) redisCounterKey c))) as [v [[]|]] eqn:E;
        do 3 eexists; intros we;
        destruct (MetricsHandler_outcome r c we Hv) as (_ & _ & HA);
        cbv zeta in HA; rewrite E in HA; rewrite app_nil_r; exact HA.
  - assert (plain rt r = false) as Hp by (destruct rt; [reflexivity .. | exact Hv]).
    unfold contentType. rewrite Hp.
    exists 405, (errorBody ("Only " +:+ verb rt +:+ " method is allowed")), [].
    intros we. destruct (rejected rt r c we Hv) as (HA & HL & _). auto.
Qed.

(** X14. Every response of the four handlers is produced by setting the
    content type, then committing the status, then writing the body, and
    the content type is among the headers sent.  Status and body are the
    same whatever the write of the body reports, and when the write of a
    JSON body fails, the failure is logged, after the records of the
    store calls. *)
Theorem response_committed_before_body (rt : route) (r : http.Request) (c : S)
    (we : option error) :
  let σ := serve (handler rt) r (writer we) c in
  let σ0 := serve (handler rt) r (writer None) c in
  httptest.events (w σ) =
    [httptest.EvHeaderSet "Content-Type" (contentType rt r);
     httptest.EvWriteHeader (httptest.Code (w σ));
     httptest.EvWrite (httptest.Body (w σ))] /\
  httptest.sent "Content-Type" (w σ) = Some [contentType rt r] /\
  httptest.Code (w σ) = httptest.Code (w σ0) /\
  httptest.Body (w σ) = httptest.Body (w σ0) /\
  (forall e : error, we = Some e -> plain rt r = false ->
     slog σ = slog σ0 ++ [("Failed to write JSON response"%string, e)]).
Proof.
  intros σ σ0.
  destruct (answer_independent_of_writer rt r c) as (status & body & lg & Hall).
  destruct (Hall we) as ((HC & HB & HE & HS) & HL). fold σ in HC, HB, HE, HS, HL.
  destruct (Hall None) as ((HC0 & HB0 & _) & HL0). fold σ0 in HC0, HB0, HL0.
  rewrite HC, HB, HC0, HB0. repeat split; try assumption.
  intros e -> Hp. rewrite HL, HL0, Hp. cbn [encodeLog]. now rewrite app_nil_r.
Qed.

End Responses.

(** C10. On each route, two requests with the same method whose store
    calls got the same replies receive the same status and the same
    body, whatever their URLs, headers, bodies and contexts, whatever the
    stores and whatever the writes of the bodies report. *)
Theorem response_depends_on_method_and_replies
    {S1 S2 : Type} `{Cmdable S1} `{Cmdable S2}
    (rt : api.route) (r1 r2 : http.Request) (c1 : S1) (c2 : S2) (we1 we2 : option error) :
  http.Method r1 = http.Method r2 ->
  api.calls (api.serve (api.handler rt) r1 (writer we1) c1) =
    api.calls (api.serve (api.handler rt) r2 (writer we2) c2) ->
  httptest.Code (api.w (api.serve (api.handler rt) r1 (writer we1) c1)) =
    httptest.Code (api.w (api.serve (api.handler rt) r2 (writer we2) c2)) /\
  httptest.Body (api.w (api.serve (api.handler rt) r1 (writer we1) c1)) =
    httptest.Body (api.w (api.serve (api.handler rt) r2 (writer we2) c2)).
Proof.
  intros Hm Hcalls.
  destruct (String.eqb (http.Method r1) (verb rt)) eqn:Hv.
  - apply String.eqb_eq in Hv. assert (http.Method r2 = verb rt) as Hv2 by congruence.
    destruct rt; cbn [verb api.handler] in *.
    + destruct (WriteHandler_outcome r1 c1 we1 Hv) as (HK1 & _ & HA1).
      destruct (WriteHandler_outcome r2 c2 we2 Hv2) as (HK2 & _ & HA2).
      cbv zeta in *. rewrite HK1, HK2 in Hcalls. injection Hcalls as Hr. rewrite Hr in HA1.
      destruct (fst (Incr (http.ctx r2) api.redisCounterKey c2)) as [v [e|]];
        destruct HA1 as ((-> & -> & _) & _), HA2 as ((-> & -> & _) & _); auto.
    + destruct (ReadHandler_outcome r1 c1 we1 Hv) as (HK1 & _ & HA1).
      destruct (ReadHandler_outcome r2 c2 we2 Hv2) as (HK2 & _ & HA2).
      cbv zeta in *. rewrite HK1, HK2 in Hcalls. injection Hcalls as Hr. rewrite Hr in HA1.
      destruct (redis.Int64 (fst (Get (http.ctx r2) api.redisCounterKey c2))) as [v [[]|]];
        destruct HA1 as ((-> & -> & _) & _), HA2 as ((-> & -> & _) & _); auto.
    + destruct (HealthHandler_outcome r1 c1 we1 Hv) as (HK1 & _ & HA1).
      destruct (HealthHandler_outcome r2 c2 we2 Hv2) as (HK2 & _ & HA2).
      cbv zeta in *. rewrite HK1, HK2 in Hcalls. injection Hcalls as Hr. rewrite Hr in HA1.
      destruct (snd (fst (Ping (http.ctx r2) c2))) as [e|];
        destruct HA1 as ((-> & -> & _) & _), HA2 as ((-> & -> & _) & _); auto.
    + destruct (MetricsHandler_outcome r1 c1 we1 Hv) as (HK1 & _ & HA1).
      destruct (MetricsHandler_outcome r2 c2 we2 Hv2) as (HK2 & _ & HA2).
      cbv zeta in *. rewrite HK1, HK2 in Hcalls. injection Hcalls as Hr Hp.
      rewrite Hr, Hp in HA1.
      destruct (redis.Int64 (fst (Get (http.ctx r2) api.redisCounterKey c2))) as [v [[]|]];
        destruct HA1 as ((-> & -> & _) & _), HA2 as ((-> & -> & _) & _); auto.
  - assert (String.eqb (http.Method r2) (verb rt) = false) as Hv2 by (now rewrite <- Hm).
    destruct (rejected rt r1 c1 we1 Hv) as ((-> & -> & _) & _).
    destruct (rejected rt r2 c2 we2 Hv2) as ((-> & -> & _) & _). auto.
Qed.

(** * Instances on the store model *)

(** From an absent key the first increments return 1, 2 and 3. *)
Example sequential_from_absent :
  server.counterOf emptyStore = 0 /\
  httptest.Body <$> api.serveAll api.WriteHandler [postWrite; postWrite; postWrite] emptyStore =
    [valueBody 1; valueBody 2; valueBody 3].
Proof. split; vm_compute; reflexivity. Qed.

(** The body of a healthy [/health] response, byte by byte. *)
Example health_body :
  jsonBody (json.MapStringString api.healthPayload) =
    "{" +:+ dq +:+ "redis" +:+ dq +:+ ":" +:+ dq +:+ "connected" +:+ dq +:+ "," +:+
    dq +:+ "service" +:+ dq +:+ ":" +:+ dq +:+ "tikky-api" +:+ dq +:+ "," +:+
    dq +:+ "status" +:+ dq +:+ ":" +:+ dq +:+ "healthy" +:+ dq +:+ "," +:+
    dq +:+ "vibe" +:+ dq +:+ ":" +:+ dq +:+ "immaculate" +:+ dq +:+ "}" +:+ nl.
Proof. vm_compute. reflexivity. Qed.

Lemma WriteHandler_success_witness :
  http.Method postWrite = "POST"%string /\
  Incr (http.ctx postWrite) api.redisCounterKey (storeWith "41") = ((42, None), storeWith "42") /\
  let σ := api.serve api.WriteHandler postWrite (writer None) (storeWith "41") in
  httptest.Code (api.w σ) = 200 /\
  httptest.Body (api.w σ) = valueBody 42 /\
  api.calls σ = [api.CallIncr api.redisCounterKey (42, None)] /\
  api.RedisClient σ = storeWith "42" /\
  (forall u : Z, MinInt64 <= u <= MaxInt64 -> MinInt64 <= 42 <= MaxInt64 ->
                 httptest.Body (api.w σ) = valueBody u -> u = 42).
Proof.
  split; [reflexivity | split; [reflexivity|]].
  apply (WriteHandler_success postWrite (storeWith "41") (storeWith "42") 42 None); reflexivity.
Defined.

Lemma ReadHandler_absent_witness :
  http.Method getRead = "GET"%string /\
  Get (http.ctx getRead) api.redisCounterKey emptyStore = ((EmptyString, Some Nil), emptyStore) /\
  let σ := api.serve api.ReadHandler getRead (writer None) emptyStore in
  httptest.Code (api.w σ) = 200 /\
  httptest.Body (api.w σ) = valueBody 0 /\
  api.slog σ = encodeLog None.
Proof.
  split; [reflexivity | split; [reflexivity|]].
  apply (ReadHandler_absent getRead emptyStore emptyStore EmptyString None); reflexivity.
Defined.

Lemma wrong_method_rejected_witness :
  http.Method getWrite <> verb api.Write /\
  let σ := api.serve (api.handler api.Write) getWrite (writer None) (storeWith "5") in
  httptest.Code (api.w σ) = 405 /\
  httptest.Body (api.w σ) = errorBody ("Only " +:+ verb api.Write +:+ " method is allowed") /\
  api.calls σ = [] /\
  api.RedisClient σ = storeWith "5".
Proof.
  split; [discriminate|].
  apply (wrong_method_rejected api.Write getWrite (storeWith "5") None); discriminate.
Defined.

Lemma MetricsHandler_always_ok_witness :
  http.Method getMetrics = "GET"%string /\
  httptest.Code (api.w (api.serve api.MetricsHandler getMetrics (writer None) (downStore refused))) = 200 /\
  httptest.Body (api.w (api.serve api.MetricsHandler getMetrics (writer None) (downStore refused))) =
    exposition (-1) 0.
Proof.
  split; [reflexivity|].
  destruct (MetricsHandler_always_ok getMetrics (downStore refused) None eq_refl)
    as (HC & _ & _).
  split; [exact HC | reflexivity].
Defined.

Lemma WriteHandler_store_error_witness :
  http.Method postWrite = "POST"%string /\
  Incr (http.ctx postWrite) api.redisCounterKey (downStore refused) =
    ((0, Some refused), downStore refused) /\
  let σ := api.serve api.WriteHandler postWrite (writer None) (downStore refused) in
  httptest.Code (api.w σ) = 500 /\
  httptest.Body (api.w σ) = errorBody "Failed to update counter" /\
  api.slog σ = [("Failed to increment redis counter"%string, refused)] ++ encodeLog None.
Proof.
  split; [reflexivity | split; [reflexivity|]].
  apply (WriteHandler_store_error postWrite (downStore refused) (downStore refused) 0
           refused None); reflexivity.
Defined.

Lemma sequential_writes_witness :
  Forall (fun r => http.Method r = "POST"%string) [postWrite; postWrite; postWrite] /\
  Forall (fun rw => httptest.Code rw = 200)
         (api.serveAll api.WriteHandler [postWrite; postWrite; postWrite] (storeWith "40")) /\
  server.counterOf (storeWith "40") = 40 /\
  forall (k : nat) (rw : httptest.ResponseRecorder),
    api.serveAll api.WriteHandler [postWrite; postWrite; postWrite] (storeWith "40") !! k = Some rw ->
    httptest.Body rw = valueBody (40 + Z.of_nat (S k)).
Proof.
  assert (Forall (fun r => http.Method r = "POST"%string) [postWrite; postWrite; postWrite])
    as HP by (repeat constructor).
  assert (Forall (fun rw => httptest.Code rw = 200)
            (api.serveAll api.WriteHandler [postWrite; postWrite; postWrite] (storeWith "40")))
    as H200 by (vm_compute; repeat constructor).
  split; [exact HP | split; [exact H200 | split; [reflexivity|]]].
  exact (proj2 (sequential_writes server.counterOf server_incr_atomic
                  [postWrite; postWrite; postWrite] (storeWith "40") HP H200)).
Defined.

Lemma HealthHandler_probe_witness :
  http.Method getHealth = "GET"%string /\
  httptest.Code (api.w (api.serve api.HealthHandler getHealth (writer None) emptyStore)) = 200 /\
  httptest.Code (api.w (api.serve api.HealthHandler getHealth (writer None) (downStore refused))) = 503.
Proof.
  split; [reflexivity|]. split.
  - apply (proj1 (HealthHandler_probe getHealth emptyStore None eq_refl)). reflexivity.
  - apply (proj1 (proj2 (HealthHandler_probe getHealth (downStore refused) None eq_refl))).
    discriminate.
Defined.

Lemma unparseable_counter_witness :
  http.Method getRead = "GET"%string /\
  Get (http.ctx getRead) api.redisCounterKey (storeWith "*") = (("*"%string, None), storeWith "*") /\
  snd (strconv.ParseInt "*") <> None /\
  httptest.Code (api.w (api.serve api.ReadHandler getRead (writer None) (storeWith "*"))) = 500 /\
  httptest.Code (api.w (api.serve api.MetricsHandler getRead (writer None) (storeWith "*"))) = 200.
Proof.
  split; [reflexivity | split; [reflexivity | split; [discriminate|]]].
  destruct (unparseable_counter getRead (storeWith "*") (storeWith "*") "*" None
              ltac:(reflexivity) ltac:(reflexivity) ltac:(discriminate)) as (HC & _ & _ & HM & _).
  split; assumption.
Defined.

Lemma response_depends_on_method_and_replies_witness :
  let r1 := {| http.Method := "GET"; http.URL := "/read?verbose=1";
               http.ReqHeader := {[ "X-Request-Id"%string := ["7"%string] ]};
               http.Body := "ignored"; http.ctx := Background |} in
  let r2 := request "GET" "/read" EmptyString Background in
  http.Method r1 = http.Method r2 /\
  api.calls (api.serve (api.handler api.Read) r1 (writer None) (storeWith "53")) =
    api.calls (api.serve (api.handler api.Read) r2 (writer (Some brokenPipe)) (storeWith "53")) /\
  httptest.Code (api.w (api.serve (api.handler api.Read) r1 (writer None) (storeWith "53"))) =
    httptest.Code (api.w (api.serve (api.handler api.Read) r2 (writer (Some brokenPipe)) (storeWith "53"))) /\
  httptest.Body (api.w (api.serve (api.handler api.Read) r1 (writer None) (storeWith "53"))) =
    httptest.Body (api.w (api.serve (api.handler api.Read) r2 (writer (Some brokenPipe)) (storeWith "53"))).
Proof.
  intros r1 r2. split; [reflexivity | split; [reflexivity|]].
  apply (response_depends_on_method_and_replies api.Read r1 r2 (storeWith "53") (storeWith "53")
           None (Some brokenPipe)); reflexivity.
Defined.

(** C8. The claim holds of the responses written through [writeJSON] and
    fails on the metrics.  On a GET to /metrics with the store up and a
    writer whose [Write] fails, status 200 is committed, the [Write] of
    the body reports its error, and nothing about it is logged:
    [MetricsHandler] drops the result of [w.Write].  The same writer on
    the 405 branch of [MetricsHandler] and on /read, both written through
    [writeJSON], has the failure logged. *)
Lemma metrics_write_failure_not_logged :
  httptest.Code (api.w (api.serve (api.handler api.Metrics) getMetrics
                          (httptest.failing brokenPipe) emptyStore)) = 200 /\
  httptest.writeErr (api.w (api.serve (api.handler api.Metrics) getMetrics
                              (httptest.failing brokenPipe) emptyStore)) = Some brokenPipe /\
  ~ loggedOnFailure api.Metrics getMetrics emptyStore brokenPipe /\
  loggedOnFailure api.Metrics (request "POST" "/metrics" EmptyString Background)
                  emptyStore brokenPipe /\
  loggedOnFailure api.Read getRead emptyStore brokenPipe.
Proof.
  split; [reflexivity | split; [reflexivity | split; [|split]]].
  - intros [msg Hin]. vm_compute in Hin. inversion Hin.
  - exists "Failed to write JSON response"%string. vm_compute. constructor.
  - exists "Failed to write JSON response"%string. vm_compute. constructor.
Qed.

(** * Further properties of the handlers *)

Section MoreOperations.
Context {S : Type} `{Cmdable S}.
Import api.

(** X1. A GET to /read for which the store returns a value that parses
    as a 64-bit integer [i] is answered with status 200 and the body
    {value: i}, after one [Get] on the counter key and with nothing
    logged; the value is written again in decimal, whatever form the
    store held it in. *)
Theorem ReadHandler_present (r : http.Request) (c c' : S) (s : string) (i : Z)
    (we : option error) :
  http.Method r = "GET"%string ->
  Get (http.ctx r) redisCounterKey c = ((s, None), c') ->
  strconv.ParseInt s = (i, None) ->
  let σ := serve ReadHandler r (writer we) c in
  httptest.Code (w σ) = 200 /\
  httptest.Body (w σ) = valueBody i /\
  MinInt64 <= i <= MaxInt64 /\
  slog σ = encodeLog we /\
  calls σ = [CallGet redisCounterKey (s, None)] /\
  RedisClient σ = c'.
Proof.
  intros Hm Hg Hp σ.
  destruct (ReadHandler_outcome r c we Hm) as (HK & HR & HA). fold σ in HK, HR, HA.
  rewrite Hg in HK, HR, HA. cbn [fst snd] in *. unfold redis.Int64 in HA.
  cbn [fst snd] in HA. rewrite Hp in HA. destruct HA as ((HC & HB & _) & HL).
  repeat split; try assumption; now apply strconv_facts.ParseInt_range in Hp.
Qed.

(** X2. A GET to /read whose [Get] fails with an error other than the
    absence of the key is answered with status 500 and the fixed body
    {error: Failed to read counter}; the error is logged once and does
    not reach the body. *)
Theorem ReadHandler_store_error (r : http.Request) (c c' : S) (val : string) (e : error)
    (we : option error) :
  http.Method r = "GET"%string ->
  Get (http.ctx r) redisCounterKey c = ((val, Some e), c') ->
  e <> Nil ->
  let σ := serve ReadHandler r (writer we) c in
  httptest.Code (w σ) = 500 /\
  httptest.Body (w σ) = errorBody "Failed to read counter" /\
  slog σ = [("Failed to read redis counter"%string, e)] ++ encodeLog we.
Proof.
  intros Hm Hg Hn σ.
  destruct (ReadHandler_outcome r c we Hm) as (_ & _ & HA). fold σ in HA.
  rewrite Hg in HA. unfold redis.Int64 in HA. cbn [fst snd] in HA.
  destruct e; [now destruct Hn | ..]; destruct HA as ((HC & HB & _) & HL); auto.
Qed.

(** X6. On every route the status is 405 exactly when the method is not
    the verb of the route, and no status occurs but 200, 405 and 500 on
    /write and /read, 200, 405 and 503 on /health, 200 and 405 on
    /metrics. *)
Theorem method_not_allowed_iff (rt : route) (r : http.Request) (c : S) (we : option error) :
  let σ := serve (handler rt) r (writer we) c in
  (httptest.Code (w σ) = 405 <-> http.Method r <> verb rt) /\
  httptest.Code (w σ) ∈
    match rt with
    | Write | Read => [200; 405; 500]
    | Health => [200; 405; 503]
    | Metrics => [200; 405]
    end.
Proof.
  intros σ. destruct (String.eqb (http.Method r) (verb rt)) eqn:Hv.
  - apply String.eqb_eq in Hv.
    assert (httptest.Code (w σ) <> 405 /\
            httptest.Code (w σ) ∈ match rt with
                                  | Write | Read => [200; 405; 500]
                                  | Health => [200; 405; 503]
                                  | Metrics => [200; 405]
                                  end) as [Hne Hin].
    { subst σ. destruct rt; cbn [verb handler] in *.
      - destruct (WriteHandler_outcome r c we Hv) as (_ & _ & HA). cbv zeta in HA.
        destruct (fst (Incr (http.ctx r) redisCounterKey c)) as [v [e|]];
          destruct HA as ((-> & _) & _); split; try discriminate; set_solver.
      - destruct (ReadHandler_outcome r c we Hv) as (_ & _ & HA). cbv zeta in HA.
        destruct (redis.Int64 (fst (Get (http.ctx r) redisCounterKey c))) as [v [[]|]];
          destruct HA as ((-> & _) & _); split; try discriminate; set_solver.
      - destruct (HealthHandler_outcome r c we Hv) as (_ & _ & HA). cbv zeta in HA.
        destruct (snd (fst (Ping (http.ctx r) c))) as [e|];
          destruct HA as ((-> & _) & _); split; try discriminate; set_solver.
      - destruct (MetricsHandler_outcome r c we Hv) as (_ & _ & HA). cbv zeta in HA.
        destruct (redis.Int64 (fst (Get (http.ctx r) redisCounterKey c))) as [v [[]|]];
          destruct HA as ((-> & _) & _); split; try discriminate; set_solver. }
    split; [|exact Hin]. split; [intros E; now destruct Hne | intros Hm; now destruct Hm].
  - destruct (rejected rt r c we Hv) as ((HC & _) & _). fold σ in HC.
    apply String.eqb_neq in Hv. split; [tauto|]. rewrite HC. destruct rt; set_solver.
Qed.

(** X7. Faults of the store are logged once, faults of the client never:
    on /write, /read and /health a response with status 500 or 503 comes
    with exactly one record in front of the log, which carries the
    message of the route and the error the store call of the invocation
    returned (for /read the error of reading the reply as a 64-bit
    integer, which is not the absence of the key); a response with
    status 200 or 405 comes with none.  The only other record an
    invocation logs is the failed write of a JSON body. *)
Theorem store_faults_logged_once (rt : route) (r : http.Request) (c : S) (we : option error) :
  rt <> Metrics ->
  let σ := serve (handler rt) r (writer we) c in
  let fault :=
    match rt with
    | Write => snd (fst (Incr (http.ctx r) redisCounterKey c))
    | Read => snd (redis.Int64 (fst (Get (http.ctx r) redisCounterKey c)))
    | Health => snd (fst (Ping (http.ctx r) c))
    | Metrics => None
    end in
  let message :=
    match rt with
    | Write => "Failed to increment redis counter"%string
    | Read => "Failed to read redis counter"%string
    | Health => "Health check failed - Redis connectivity"%string
    | Metrics => EmptyString
    end in
  (httptest.Code (w σ) = 200 \/ httptest.Code (w σ) = 405 -> slog σ = encodeLog we) /\
  (httptest.Code (w σ) = 500 \/ httptest.Code (w σ) = 503 ->
   http.Method r = verb rt /\
   exists e, fault = Some e /\ (rt = Read -> e <> Nil) /\
             slog σ = (message, e) :: encodeLog we).
Proof.
  intros Hrt σ fault message. destruct (String.eqb (http.Method r) (verb rt)) eqn:Hv.
  - apply String.eqb_eq in Hv. subst σ fault message. destruct rt; cbn [verb handler] in *.
    + destruct (WriteHandler_outcome r c we Hv) as (_ & _ & HA). cbv zeta in HA.
      destruct (fst (Incr (http.ctx r) redisCounterKey c)) as [v [e|]];
        destruct HA as ((-> & _) & ->); split; intros [E|E]; try discriminate E;
        try reflexivity; (split; [exact Hv|]); exists e; cbn [snd];
        (split; [reflexivity | split; [discriminate | reflexivity]]).
    + destruct (ReadHandler_outcome r c we Hv) as (_ & _ & HA). cbv zeta in HA.
      destruct (redis.Int64 (fst (Get (http.ctx r) redisCounterKey c))) as [v [e|]];
        [destruct e|];
        destruct HA as ((-> & _) & ->); split; intros [E|E]; try discriminate E;
        try reflexivity; (split; [exact Hv|]); eexists; cbn [snd];
        (split; [reflexivity | split; [discriminate | reflexivity]]).
    + destruct (HealthHandler_outcome r c we Hv) as (_ & _ & HA). cbv zeta in HA.
      destruct (snd (fst (Ping (http.ctx r) c))) as [e|];
        destruct HA as ((-> & _) & ->); split; intros [E|E]; try discriminate E;
        try reflexivity; (split; [exact Hv|]); exists e;
        (split; [reflexivity | split; [discriminate | reflexivity]]).
    + now destruct Hrt.
  - destruct (rejected rt r c we Hv) as ((HC & _) & HL & _). fold σ in HC, HL.
    rewrite HC, HL. split; [reflexivity | intros [E|E]; discriminate E].
Qed.

(** X8. A request with the verb of its route makes exactly one call on
    the store, on the counter key, and two on /metrics, the read and then
    the probe on the state the read left, whatever the calls return and
    whatever the write of the body reports: no call is repeated, none is
    skipped, and the client is left as the last call left it. *)
Theorem store_calls_per_request (rt : route) (r : http.Request) (c : S) (we : option error) :
  http.Method r = verb rt ->
  let σ := serve (handler rt) r (writer we) c in
  let ctx := http.ctx r in
  match rt with
  | Write =>
      calls σ = [CallIncr "counter" (fst (Incr ctx "counter" c))] /\
      RedisClient σ = snd (Incr ctx "counter" c)
  | Read =>
      calls σ = [CallGet "counter" (fst (Get ctx "counter" c))] /\
      RedisClient σ = snd (Get ctx "counter" c)
  | Health =>
      calls σ = [CallPing (fst (Ping ctx c))] /\
      RedisClient σ = snd (Ping ctx c)
  | Metrics =>
      calls σ = [CallGet "counter" (fst (Get ctx "counter" c));
                 CallPing (fst (Ping ctx (snd (Get ctx "counter" c))))] /\
      RedisClient σ = snd (Ping ctx (snd (Get ctx "counter" c)))
  end.
Proof.
  intros Hv σ ctx. subst σ ctx. destruct rt; cbn [verb handler] in *.
  - destruct (WriteHandler_outcome r c we Hv) as (HK & HR & _). auto.
  - destruct (ReadHandler_outcome r c we Hv) as (HK & HR & _). auto.
  - destruct (HealthHandler_outcome r c we Hv) as (HK & HR & _). auto.
  - destruct (MetricsHandler_outcome r c we Hv) as (HK & HR & _). auto.
Qed.

End MoreOperations.

(** X3. /read gives back what /write gave: when [Get] returns the decimal
    form of the 64-bit integer [v], the response of /read has the status
    and, byte for byte, the body of the response of /write for an
    increment that returned [v]. *)
Theorem read_echoes_write {S1 S2 : Type} `{Cmdable S1} `{Cmdable S2}
    (rw rr : http.Request) (c1 c1' : S1) (c2 c2' : S2) (v : Z) (we1 we2 : option error) :
  http.Method rw = "POST"%string ->
  http.Method rr = "GET"%string ->
  MinInt64 <= v <= MaxInt64 ->
  Incr (http.ctx rw) api.redisCounterKey c1 = ((v, None), c1') ->
  Get (http.ctx rr) api.redisCounterKey c2 = ((strconv.FormatInt v, None), c2') ->
  httptest.Code (api.w (api.serve api.ReadHandler rr (writer we2) c2)) =
    httptest.Code (api.w (api.serve api.WriteHandler rw (writer we1) c1)) /\
  httptest.Body (api.w (api.serve api.ReadHandler rr (writer we2) c2)) =
    httptest.Body (api.w (api.serve api.WriteHandler rw (writer we1) c1)).
Proof.
  intros Hw Hr Hv Hi Hg.
  destruct (WriteHandler_outcome rw c1 we1 Hw) as (_ & _ & HW). cbv zeta in HW.
  rewrite Hi in HW. cbn [fst snd] in HW. destruct HW as ((-> & -> & _) & _).
  destruct (ReadHandler_outcome rr c2 we2 Hr) as (_ & _ & HR). cbv zeta in HR.
  rewrite Hg in HR. unfold redis.Int64 in HR. cbn [fst snd] in HR.
  rewrite (strconv_facts.ParseInt_FormatInt v Hv) in HR.
  destruct HR as ((-> & -> & _) & _). split; reflexivity.
Qed.

(** X10. The sentinel of the metrics is ambiguous: a counter whose stored
    value is -1 is exported by /metrics exactly like a counter whose read
    failed or did not parse, when the probes agree. *)
Theorem metrics_sentinel_ambiguous {S1 S2 : Type} `{Cmdable S1} `{Cmdable S2}
    (r : http.Request) (c1 c1' : S1) (c2 c2' : S2) (cmd : redis.StringCmd) (i : Z) (e : error)
    (we1 we2 : option error) :
  http.Method r = "GET"%string ->
  Get (http.ctx r) api.redisCounterKey c1 = (("-1"%string, None), c1') ->
  Get (http.ctx r) api.redisCounterKey c2 = (cmd, c2') ->
  redis.Int64 cmd = (i, Some e) ->
  e <> Nil ->
  (snd (fst (Ping (http.ctx r) c1')) = None <-> snd (fst (Ping (http.ctx r) c2')) = None) ->
  httptest.Code (api.w (api.serve api.MetricsHandler r (writer we1) c1)) =
    httptest.Code (api.w (api.serve api.MetricsHandler r (writer we2) c2)) /\
  httptest.Body (api.w (api.serve api.MetricsHandler r (writer we1) c1)) =
    httptest.Body (api.w (api.serve api.MetricsHandler r (writer we2) c2)).
Proof.
  intros Hm Hg1 Hg2 Hi Hn Hp.
  destruct (MetricsHandler_outcome r c1 we1 Hm) as (_ & _ & H1). cbv zeta in H1.
  destruct (MetricsHandler_outcome r c2 we2 Hm) as (_ & _ & H2). cbv zeta in H2.
  rewrite Hg1 in H1. rewrite Hg2 in H2. cbn [fst snd] in H1, H2.
  change (redis.Int64 ("-1"%string, None)) with (-1, @None error) in H1.
  rewrite Hi in H2.
  assert (match snd (fst (Ping (http.ctx r) c1')) with Some _ => 0 | None => 1 end =
          match snd (fst (Ping (http.ctx r) c2')) with Some _ => 0 | None => 1 end) as Hc.
  { destruct (snd (fst (Ping (http.ctx r) c1'))), (snd (fst (Ping (http.ctx r) c2')));
      try reflexivity; destruct Hp as [Hp1 Hp2];
      [specialize (Hp2 eq_refl) | specialize (Hp1 eq_refl)]; discriminate. }
  rewrite Hc in H1. destruct H1 as ((-> & -> & _) & _).
  destruct e; [now destruct Hn | ..]; destruct H2 as ((-> & -> & _) & _); split; reflexivity.
Qed.

(** * The test double *)

Lemma int64_add_l (a b : Z) : int64 (int64 a + b) = int64 (a + b).
Proof.
  unfold int64. f_equal.
  replace (((a + 2 ^ 63) mod 2 ^ 64 - 2 ^ 63) + b + 2 ^ 63)
    with ((a + 2 ^ 63) mod 2 ^ 64 + b) by ring.
  rewrite Zplus_mod_idemp_l. f_equal. ring.
Qed.

(** X4. The test double never reports an overflow: with no error set,
    after k calls of [Incr] the next one succeeds and returns the counter
    it started from plus k + 1 as a 64-bit integer, leaving that value
    as the counter; past the largest value the count wraps around to the
    smallest. *)
Theorem mock_Incr_wraps (c : Context) (key : string) (m : mock.mockRedisClient) (k : nat) :
  mock.err m = None ->
  let after := Nat.iter k (fun m' => snd (mock.Incr c key m')) m in
  mock.Incr c key after =
    ((int64 (mock.counter m + Z.of_nat (S k)), None),
     {| mock.counter := int64 (mock.counter m + Z.of_nat (S k)); mock.err := None |}).
Proof.
  intros He after.
  assert (forall m' : mock.mockRedisClient, mock.err m' = None ->
            mock.Incr c key m' =
              ((int64 (mock.counter m' + 1), None),
               {| mock.counter := int64 (mock.counter m' + 1); mock.err := None |}))
    as Hstep.
  { intros m' E. unfold mock.Incr. rewrite E. reflexivity. }
  assert (mock.err after = None /\
          int64 (mock.counter after + 1) = int64 (mock.counter m + Z.of_nat (S k)))
    as [Ha Hc].
  { subst after. induction k as [|k [IHe IHc]].
    - split; [exact He | reflexivity].
    - rewrite Nat.iter_succ, (Hstep _ IHe). cbn [snd mock.err mock.counter].
      split; [reflexivity|]. rewrite IHc, int64_add_l. f_equal. lia. }
  rewrite (Hstep _ Ha), Hc. reflexivity.
Qed.

(** Every byte from 128 on makes [ParseInt] fail at once. *)
Lemma ParseInt_high_byte (c : ascii) (rest : string) :
  128 <= code_of c -> snd (strconv.ParseInt (String c rest)) <> None.
Proof.
  intros Hc.
  destruct c as [[] [] [] [] [] [] [] []];
    first [ discriminate | exfalso; apply Hc; reflexivity ].
Qed.

Lemma below_cases (P : Z -> Prop) (n : nat) :
  (forall k : nat, (k < n)%nat -> P (Z.of_nat k)) ->
  forall z : Z, 0 <= z < Z.of_nat n -> P z.
Proof.
  intros HP z Hz. rewrite <- (Z2Nat.id z) by lia. apply HP. lia.
Qed.

Lemma lead_byte_high (lead bound : Z) (x : Z) :
  (lead = 192 /\ bound = 32) \/ (lead = 224 /\ bound = 16) \/ (lead = 240 /\ bound = 8) ->
  0 <= x < bound -> 128 <= code_of (byte_of (Z.lor lead x)).
Proof.
  intros [[-> ->] | [[-> ->] | [-> ->]]] Hx; revert x Hx.
  - apply (below_cases _ 32). intros k Hk.
    do 32 (destruct k as [|k]; [vm_compute; discriminate|]). lia.
  - apply (below_cases _ 16). intros k Hk.
    do 16 (destruct k as [|k]; [vm_compute; discriminate|]). lia.
  - apply (below_cases _ 8). intros k Hk.
    do 8 (destruct k as [|k]; [vm_compute; discriminate|]). lia.
Qed.

Lemma ParseInt_single_byte (z : Z) :
  0 <= z < 128 ->
  (48 <= z <= 57 -> strconv.ParseInt (String (byte_of z) EmptyString) = (z - 48, None)) /\
  (~ 48 <= z <= 57 -> snd (strconv.ParseInt (String (byte_of z) EmptyString)) <> None).
Proof.
  revert z. apply (below_cases _ 128). intros k Hk.
  do 128 (destruct k as [|k];
          [split; intros Hd; first [reflexivity | discriminate | exfalso; lia]|]).
  lia.
Qed.

(** The string the test double returns for a counter parses exactly when
    the rune is a decimal digit, and then as that digit. *)
Lemma ParseInt_stringOfRune (r : Z) :
  (48 <= r <= 57 -> strconv.ParseInt (mock.stringOfRune r) = (r - 48, None)) /\
  (~ 48 <= r <= 57 -> snd (strconv.ParseInt (mock.stringOfRune r)) <> None).
Proof.
  unfold mock.stringOfRune.
  destruct ((r <? 0) || (1114111 <? r) || ((55296 <=? r) && (r <=? 57343))) eqn:Hbad.
  - split; [intros Hd; exfalso|intros _; discriminate].
    rewrite !orb_true_iff, andb_true_iff in Hbad. lia.
  - rewrite !orb_false_iff in Hbad. destruct Hbad as [[H0 Hmax] _].
    destruct (r <? 128) eqn:H1; [apply ParseInt_single_byte; lia|].
    assert (forall lead bound x rest,
               (lead = 192 /\ bound = 32) \/ (lead = 224 /\ bound = 16) \/
               (lead = 240 /\ bound = 8) ->
               0 <= x < bound ->
               (48 <= r <= 57 ->
                strconv.ParseInt (String (byte_of (Z.lor lead x)) rest) = (r - 48, None)) /\
               (~ 48 <= r <= 57 ->
                snd (strconv.ParseInt (String (byte_of (Z.lor lead x)) rest)) <> None)) as Hhigh.
    { intros lead bound x rest Hl Hx. split; [intros Hd; exfalso; lia|intros _].
      apply ParseInt_high_byte. now apply (lead_byte_high lead bound). }
    destruct (r <? 2048) eqn:H2; [|destruct (r <? 65536) eqn:H3].
    + apply (Hhigh 192 32); [tauto|]. rewrite Z.shiftr_div_pow2 by lia.
      change (2 ^ 6) with 64. split; [apply Z.div_pos; lia | apply Z.div_lt_upper_bound; lia].
    + apply (Hhigh 224 16); [tauto|]. rewrite Z.shiftr_div_pow2 by lia.
      change (2 ^ 12) with 4096.
      split; [apply Z.div_pos; lia | apply Z.div_lt_upper_bound; lia].
    + apply (Hhigh 240 8); [tauto|]. rewrite Z.shiftr_div_pow2 by lia.
      change (2 ^ 18) with 262144.
      split; [apply Z.div_pos; lia | apply Z.div_lt_upper_bound; lia].
Qed.

(** X5. Reading the reply of the test double's [Get] as a 64-bit integer
    never gives the counter it holds: for a positive counter the reply
    holds the character with that code point, so [Int64] gives the value
    of the digit when the character is a decimal digit, and an error of
    parsing otherwise. *)
Theorem mock_Get_Int64 (c : Context) (key : string) (m : mock.mockRedisClient) :
  mock.err m = None ->
  0 < mock.counter m ->
  let cmd := fst (mock.Get c key m) in
  let rune := int32 (mock.counter m) in
  cmd = (mock.stringOfRune rune, None) /\
  (48 <= rune <= 57 -> redis.Int64 cmd = (rune - 48, None)) /\
  (~ 48 <= rune <= 57 -> exists i e, redis.Int64 cmd = (i, Some e) /\ e <> Nil) /\
  rune - 48 <> mock.counter m.
Proof.
  intros He Hc cmd rune.
  assert (cmd = (mock.stringOfRune rune, None)) as Hcmd.
  { subst cmd rune. unfold mock.Get. rewrite He. apply Z.ltb_lt in Hc. now rewrite Hc. }
  destruct (ParseInt_stringOfRune rune) as [Hd Hnd].
  rewrite Hcmd. unfold redis.Int64. cbn [fst snd].
  split; [reflexivity | split; [exact Hd | split]].
  - intros Hr. specialize (Hnd Hr).
    destruct (strconv.ParseInt (mock.stringOfRune rune)) as [i [e|]] eqn:E;
      [|now destruct Hnd].
    exists i, e. split; [reflexivity | now apply ParseInt_error_not_Nil in E].
  - subst rune. unfold int32. change (2 ^ 31) with 2147483648.
    change (2 ^ 32) with 4294967296.
    pose proof (Z.div_mod (mock.counter m + 2147483648) 4294967296 ltac:(lia)). lia.
Qed.

(** * The construction of the client *)

(** X11. [NewClient] never dials an empty address: a [REDIS_ADDR] that is
    set to the empty string counts as unset, and both give the client of
    the default address localhost:6379; any other value is dialled as it
    is.  When the first ping of the dialled client fails, [NewClient]
    returns no client and the error of that ping; when it succeeds, the
    pinged client and no error. *)
Theorem NewClient_address {S : Type} `{Cmdable S} (dial : tikky_redis.Options -> S)
    (env : gmap string string) (c : Context) :
  tikky_redis.Addr (tikky_redis.options env) <> EmptyString /\
  tikky_redis.NewClient dial (<["REDIS_ADDR"%string := EmptyString]> env) c =
    tikky_redis.NewClient dial (delete "REDIS_ADDR"%string env) c /\
  tikky_redis.NewClient dial (delete "REDIS_ADDR"%string env) c =
    tikky_redis.NewClient dial (<["REDIS_ADDR"%string := "localhost:6379"%string]> env) c /\
  (forall a : string, a <> EmptyString -> env !! "REDIS_ADDR"%string = Some a ->
                      tikky_redis.Addr (tikky_redis.options env) = a) /\
  (forall (v : string) (e : error) (rdb : S),
      Ping c (dial (tikky_redis.options env)) = ((v, Some e), rdb) ->
      tikky_redis.NewClient dial env c = (None, Some e)) /\
  (forall (v : string) (rdb : S),
      Ping c (dial (tikky_redis.options env)) = ((v, None), rdb) ->
      tikky_redis.NewClient dial env c = (Some rdb, None)).
Proof.
  assert (forall v, tikky_redis.options (<["REDIS_ADDR"%string := v]> env) =
                    {| tikky_redis.Addr :=
                         if String.eqb v EmptyString then "localhost:6379"%string else v;
                       tikky_redis.Password := tikky_redis.Getenv env "REDIS_PASSWORD";
                       tikky_redis.DB := 0; tikky_redis.PoolSize := 20;
                       tikky_redis.ReadTimeout := 3 * tikky_redis.Second;
                       tikky_redis.WriteTimeout := 3 * tikky_redis.Second |}) as Hins.
  { intros v. unfold tikky_redis.options, tikky_redis.Getenv.
    rewrite lookup_insert_eq, lookup_insert_ne by discriminate. reflexivity. }
  assert (tikky_redis.options (delete "REDIS_ADDR"%string env) =
          {| tikky_redis.Addr := "localhost:6379"%string;
             tikky_redis.Password := tikky_redis.Getenv env "REDIS_PASSWORD";
             tikky_redis.DB := 0; tikky_redis.PoolSize := 20;
             tikky_redis.ReadTimeout := 3 * tikky_redis.Second;
             tikky_redis.WriteTimeout := 3 * tikky_redis.Second |}) as Hdel.
  { unfold tikky_redis.options, tikky_redis.Getenv.
    rewrite lookup_delete_eq, lookup_delete_ne by discriminate. reflexivity. }
  split; [|split; [|split; [|split; [|split]]]].
  - unfold tikky_redis.options. cbn [tikky_redis.Addr].
    destruct (String.eqb (tikky_redis.Getenv env "REDIS_ADDR") EmptyString) eqn:E;
      [discriminate | now apply String.eqb_neq in E].
  - unfold tikky_redis.NewClient. rewrite Hins, Hdel. reflexivity.
  - unfold tikky_redis.NewClient. rewrite Hins, Hdel. reflexivity.
  - intros a Ha Hl. unfold tikky_redis.options, tikky_redis.Getenv. rewrite Hl.
    change (default EmptyString (Some a)) with a. cbn [tikky_redis.Addr].
    apply String.eqb_neq in Ha. now rewrite Ha.
  - intros v e rdb Hp. unfold tikky_redis.NewClient. now rewrite Hp.
  - intros v rdb Hp. unfold tikky_redis.NewClient. now rewrite Hp.
Qed.

(** * The scripts *)

(** X12. Under [set -e] a simulated user of the load test never gets
    past its first request: the first [((success++))] or [((errors++))]
    finds its counter at 0 and exits with status 1, so the user issues a
    single POST to /write, whatever its outcome, and writes no result
    file. *)
Theorem make_requests_stops_at_first_request (curl : string -> string -> Z -> bool) (n : Z) :
  1 <= n ->
  loadtest.make_requests curl n = (loadtest.Exits 1, [("POST"%string, "/write"%string)]).
Proof.
  intros Hn. unfold loadtest.make_requests.
  destruct (Z.to_nat n) as [|k] eqn:E; [lia|].
  cbn [loadtest.requests]. change (1 mod 2 =? 0) with false. cbv iota. cbn [fst snd app].
  destruct (curl "POST"%string "/write"%string 1); reflexivity.
Qed.

Section Fallback.
Variable grep_qi : string -> string -> bool.
Variable echo_e : string -> string.

(** Of [echo -e] this much is used: an argument that starts with [\033]
    is printed with the byte ESC in front. *)
Hypothesis echo_escape :
  forall s : string, exists rest : string,
    echo_e ("\033" +:+ s) = String buildload.ESC rest.

Lemma chomp_cons (c : ascii) (s : string) :
  Ascii.eqb c "010" = false -> exists r, buildload.chomp (String c s) = String c r.
Proof.
  intros Hc. cbn [buildload.chomp]. rewrite Hc.
  destruct (buildload.chomp s); eexists; reflexivity.
Qed.


End Fallback.

(** * The headers of the responses *)

Section Headers.
Context {S : Type} `{Cmdable S}.
Import api.

Lemma writeJSON_headers (status : Z) (v : json.any) (c : S) (we : option error)
    (lg : list (string * error)) (cs : list storeCall) :
  httptest.snapHeader (w (snd (writeJSON status v (world c (writer we) lg cs)))) =
    Some (<["Content-Type"%string := ["application/json"%string]]> ∅).
Proof. destruct we; reflexivity. Qed.

Lemma plain_headers (buf : string) (we : option error) :
  httptest.snapHeader
    (snd (httptest.Write buf
            (httptest.WriteHeader http.StatusOK
               (httptest.HeaderSet "Content-Type"
                  "text/plain; version=0.0.4; charset=utf-8" (writer we))))) =
    Some (<["Content-Type"%string := ["text/plain; version=0.0.4; charset=utf-8"%string]]> ∅).
Proof. destruct we; reflexivity. Qed.

(** X9. The only header a handler sends is the content type: the headers
    committed with the status are the content type alone, on every route
    and in every branch, so a 405 response carries no Allow header. *)
Theorem only_content_type_sent (rt : route) (r : http.Request) (c : S) (we : option error) :
  let σ := serve (handler rt) r (writer we) c in
  httptest.snapHeader (w σ) = Some {[ "Content-Type"%string := [contentType rt r] ]} /\
  httptest.sent "Allow" (w σ) = None.
Proof.
  intros σ.
  assert (httptest.snapHeader (w σ) =
          Some (<["Content-Type"%string := [contentType rt r]]> ∅)) as Hs.
  { subst σ. unfold contentType, plain.
    destruct rt; cbn [handler];
      rewrite ?WriteHandler_run, ?ReadHandler_run, ?HealthHandler_run, ?MetricsHandler_run;
      destruct (String.eqb (http.Method r) _); try apply writeJSON_headers.
    - destruct (Incr (http.ctx r) redisCounterKey c) as [[v [e|]] c'];
        apply writeJSON_headers.
    - destruct (Get (http.ctx r) redisCounterKey c) as [cmd c'].
      destruct (redis.Int64 cmd) as [v [[]|]]; apply writeJSON_headers.
    - destruct (Ping (http.ctx r) c) as [[v [e|]] c']; apply writeJSON_headers.
    - destruct (Get (http.ctx r) redisCounterKey c) as [cmd c1].
      destruct (Ping (http.ctx r) c1) as [pong c2].
      destruct (redis.Int64 cmd) as [v [[]|]]; cbv iota beta zeta; cbn [world w];
        apply plain_headers. }
  split.
  - rewrite Hs. f_equal.
  - unfold httptest.sent. rewrite Hs.
    change ((<["Content-Type"%string := [contentType rt r]]> (∅ : http.Header))
              !! "Allow"%string = None).
    unfold http.Header. rewrite lookup_insert_ne by discriminate. apply lookup_empty.
Qed.

End Headers.

(** * Instances of the further properties *)

Lemma ReadHandler_present_witness :
  http.Method getRead = "GET"%string /\
  Get (http.ctx getRead) api.redisCounterKey (storeWith "+007") =
    (("+007"%string, None), storeWith "+007") /\
  strconv.ParseInt "+007" = (7, None) /\
  let σ := api.serve api.ReadHandler getRead (writer None) (storeWith "+007") in
  httptest.Code (api.w σ) = 200 /\
  httptest.Body (api.w σ) = valueBody 7 /\
  MinInt64 <= 7 <= MaxInt64 /\
  api.slog σ = encodeLog None /\
  api.calls σ = [api.CallGet api.redisCounterKey ("+007"%string, None)] /\
  api.RedisClient σ = storeWith "+007".
Proof.
  split; [reflexivity | split; [reflexivity | split; [reflexivity|]]].
  apply (ReadHandler_present getRead (storeWith "+007") (storeWith "+007") "+007" 7 None);
    reflexivity.
Defined.

Lemma ReadHandler_store_error_witness :
  http.Method getRead = "GET"%string /\
  Get (http.ctx getRead) api.redisCounterKey (downStore refused) =
    ((EmptyString, Some refused), downStore refused) /\
  refused <> Nil /\
  let σ := api.serve api.ReadHandler getRead (writer None) (downStore refused) in
  httptest.Code (api.w σ) = 500 /\
  httptest.Body (api.w σ) = errorBody "Failed to read counter" /\
  api.slog σ = [("Failed to read redis counter"%string, refused)] ++ encodeLog None.
Proof.
  split; [reflexivity | split; [reflexivity | split; [discriminate|]]].
  apply (ReadHandler_store_error getRead (downStore refused) (downStore refused)
           EmptyString refused None); [reflexivity | reflexivity | discriminate].
Defined.

Lemma read_echoes_write_witness :
  http.Method postWrite = "POST"%string /\
  http.Method getRead = "GET"%string /\
  MinInt64 <= 42 <= MaxInt64 /\
  Incr (http.ctx postWrite) api.redisCounterKey (storeWith "41") = ((42, None), storeWith "42") /\
  Get (http.ctx getRead) api.redisCounterKey (storeWith "42") =
    ((strconv.FormatInt 42, None), storeWith "42") /\
  httptest.Code (api.w (api.serve api.ReadHandler getRead (writer None) (storeWith "42"))) =
    httptest.Code (api.w (api.serve api.WriteHandler postWrite (writer None) (storeWith "41"))) /\
  httptest.Body (api.w (api.serve api.ReadHandler getRead (writer None) (storeWith "42"))) =
    httptest.Body (api.w (api.serve api.WriteHandler postWrite (writer None) (storeWith "41"))).
Proof.
  assert (MinInt64 <= 42 <= MaxInt64) as Hv by (unfold MinInt64, MaxInt64; lia).
  split; [reflexivity | split; [reflexivity | split; [exact Hv |
    split; [reflexivity | split; [reflexivity|]]]]].
  apply (read_echoes_write postWrite getRead (storeWith "41") (storeWith "42") (storeWith "42")
           (storeWith "42") 42 None None); first [reflexivity | exact Hv].
Defined.

Lemma mock_Incr_wraps_witness :
  mock.err (mockAt (MaxInt64 - 1)) = None /\
  fst (mock.Incr Background api.redisCounterKey
         (Nat.iter 1 (fun m' => snd (mock.Incr Background api.redisCounterKey m'))
            (mockAt (MaxInt64 - 1)))) = (MinInt64, None).
Proof.
  split; [reflexivity|].
  rewrite (mock_Incr_wraps Background api.redisCounterKey (mockAt (MaxInt64 - 1)) 1 eq_refl).
  reflexivity.
Defined.

Lemma mock_Get_Int64_witness :
  mock.err (mockAt 42) = None /\
  0 < mock.counter (mockAt 42) /\
  ~ 48 <= int32 42 <= 57 /\
  exists i e, redis.Int64 (fst (mock.Get Background api.redisCounterKey (mockAt 42))) =
                (i, Some e) /\ e <> Nil.
Proof.
  assert (~ 48 <= int32 42 <= 57) as Hr by (vm_compute; intros [Hl _]; now apply Hl).
  split; [reflexivity | split; [reflexivity | split; [exact Hr|]]].
  exact (proj1 (proj2 (proj2 (mock_Get_Int64 Background api.redisCounterKey (mockAt 42)
                                eq_refl eq_refl))) Hr).
Defined.

Lemma store_faults_logged_once_witness :
  api.Health <> api.Metrics /\
  api.slog (api.serve (api.handler api.Health) getHealth (writer None) (downStore refused)) =
    [("Health check failed - Redis connectivity"%string, refused)].
Proof.
  split; [discriminate|].
  destruct (proj2 (store_faults_logged_once api.Health getHealth (downStore refused) None
                     ltac:(discriminate)) (or_intror eq_refl)) as (_ & e & He & _ & HL).
  injection He as <-. exact HL.
Defined.

Lemma store_calls_per_request_witness :
  http.Method getMetrics = verb api.Metrics /\
  api.calls (api.serve (api.handler api.Metrics) getMetrics (writer None) (downStore refused)) =
    [api.CallGet "counter" (EmptyString, Some refused);
     api.CallPing (EmptyString, Some refused)].
Proof.
  split; [reflexivity|].
  exact (proj1 (store_calls_per_request api.Metrics getMetrics (downStore refused) None
                  eq_refl)).
Defined.

Lemma metrics_sentinel_ambiguous_witness :
  http.Method getMetrics = "GET"%string /\
  Get (http.ctx getMetrics) api.redisCounterKey (storeWith "-1") =
    (("-1"%string, None), storeWith "-1") /\
  Get (http.ctx getMetrics) api.redisCounterKey (storeWith "*") =
    (("*"%string, None), storeWith "*") /\
  redis.Int64 ("*"%string, None) = (0, Some (NumError "ParseInt" "*" ErrSyntax)) /\
  httptest.Body (api.w (api.serve api.MetricsHandler getMetrics (writer None) (storeWith "-1"))) =
    httptest.Body (api.w (api.serve api.MetricsHandler getMetrics (writer None) (storeWith "*"))).
Proof.
  split; [reflexivity | split; [reflexivity | split; [reflexivity | split; [reflexivity|]]]].
  apply (metrics_sentinel_ambiguous getMetrics (storeWith "-1") (storeWith "-1")
           (storeWith "*") (storeWith "*") ("*"%string, None) 0
           (NumError "ParseInt" "*" ErrSyntax)
           None None); first [reflexivity | discriminate | (split; reflexivity)].
Defined.

Lemma make_requests_stops_at_first_request_witness :
  1 <= loadtest.REQUESTS_PER_USER /\
  loadtest.make_requests (fun _ _ _ => true) loadtest.REQUESTS_PER_USER =
    (loadtest.Exits 1, [("POST"%string, "/write"%string)]).
Proof.
  assert (1 <= loadtest.REQUESTS_PER_USER) as Hn by (unfold loadtest.REQUESTS_PER_USER; lia).
  split; [exact Hn|].
  exact (make_requests_stops_at_first_request (fun _ _ _ => true) loadtest.REQUESTS_PER_USER Hn).
Defined.

